(** * gzbd-viewer: zone tracking, unit normalisation and grid layout

    A shallow embedding of [tools/gzbd-viewer/gzbd_viewer.c] and the
    properties of its device session: [gzv_fix_zone_values], [gzv_close],
    [gzv_open], [main] and [gzv_report_zones].

    Conventions.
    - C integers are values of [Z]; every operation whose C result can leave
      the range of its type is written with its wrap-around ([u32], [u64],
      [int_of_u32]).
    - An array is a list; a pointer into an array is an index. A read or a
      write at an index outside the array is the outcome [Fault].
    - The calls of the program to its collaborators (libzbd, the allocator,
      the GTK interface) are taken from an environment record [env]; each
      call that matters to a property is recorded as an [event]. *)

From Stdlib Require Import ZArith Lia List String.
From stdpp Require Import base list.
Import ListNotations.

Local Open Scope Z_scope.

(** ** Machine integers *)

Module CInt.

Definition UINT_MOD : Z := 2 ^ 32.
Definition ULL_MOD : Z := 2 ^ 64.
Definition INT_MAX : Z := 2 ^ 31 - 1.

(** Conversion to [unsigned int]. *)
Definition u32 (x : Z) : Z := x mod UINT_MOD.

(** Conversion to [unsigned long long]. *)
Definition u64 (x : Z) : Z := x mod ULL_MOD.

(** Conversion of an [unsigned int] to [int] (two's complement). *)
Definition int_of_u32 (x : Z) : Z :=
  let y := u32 x in if y <=? INT_MAX then y else y - UINT_MOD.

End CInt.

Import CInt.

(** ** Outcomes of a computation on arrays *)

Inductive result (A : Type) : Type :=
| Ok (a : A)        (* normal completion *)
| Fault             (* access outside an array, or through a null pointer *)
| OutOfFuel.        (* the iteration bound of the model was reached *)

Arguments Ok {A} a.
Arguments Fault {A}.
Arguments OutOfFuel {A}.

#[global] Instance result_ret : MRet result := @Ok.

#[global] Instance result_bind : MBind result := fun A B k r =>
  match r with
  | Ok a => k a
  | Fault => Fault
  | OutOfFuel => OutOfFuel
  end.

(** ** Zone records *)

(** Modelled from the spec: [struct blk_zone] comes from a header that is not
    part of the sources. The record has the fields the spec lists for a zone:
    start offset, length, write pointer (64-bit unsigned), type and
    condition. *)
Record blk_zone : Type := mk_blk_zone {
  start : Z;
  len : Z;
  wp : Z;
  type : Z;
  cond : Z
}.

Definition BLK_ZONE_TYPE_CONVENTIONAL : Z := 1.
Definition BLK_ZONE_TYPE_SEQWRITE_REQ : Z := 2.

(** Modelled from the spec: the libzbd accessor macros [zbd_zone_conventional]
    and [zbd_zone_start] are declared in a header that is not part of the
    sources. A zone is conventional when its type says so, and its start is
    the stored [start] field. *)
Definition zbd_zone_conventional (z : blk_zone) : bool :=
  type z =? BLK_ZONE_TYPE_CONVENTIONAL.

Definition zbd_zone_start (z : blk_zone) : Z := start z.

(** ** Unit normalisation: [gzv_fix_zone_values] *)

(** The body of the loop, on the zone [blkz] points to:
    [blkz->start /= gzv.block_size; blkz->len /= gzv.block_size;
     if (!zbd_zone_conventional(blkz)) blkz->wp /= gzv.block_size;]
    The [int] divisor is converted to the 64-bit unsigned type of the
    fields; C division truncates. *)
Definition fix_zone (block_size : Z) (z : blk_zone) : blk_zone :=
  let d := u64 block_size in
  {| start := Z.quot (start z) d;
     len := Z.quot (len z) d;
     wp := if zbd_zone_conventional z then wp z else Z.quot (wp z) d;
     type := type z;
     cond := cond z |}.

(** [for (i = 0; i < nrz; i++) { ...; blkz++; }] with [n] iterations left and
    [blkz] the index the pointer is at. Dividing by zero faults, and so does
    an access past the end of the array. *)
Fixpoint fix_zone_loop (block_size : Z) (n : nat) (blkz : nat)
    (mem : list blk_zone) : result (list blk_zone) :=
  match n with
  | O => Ok mem
  | S n' =>
      match mem !! blkz with
      | None => Fault
      | Some z =>
          if u64 block_size =? 0 then Fault
          else fix_zone_loop block_size n' (S blkz)
                 (<[blkz := fix_zone block_size z]> mem)
      end
  end.

(** [static void gzv_fix_zone_values(struct blk_zone *blkz, int nrz)];
    [mem] is the array [blkz] points into. *)
Definition gzv_fix_zone_values (block_size : Z) (mem : list blk_zone)
    (blkz : nat) (nrz : Z) : result (list blk_zone) :=
  if block_size =? 1 then Ok mem
  else fix_zone_loop block_size (Z.to_nat nrz) blkz mem.

(** ** The session state: [struct gzv] *)

(** Modelled from the spec: [struct zbd_info], [struct gzv_zone] and
    [struct gzv] are declared in headers that are not part of the sources.
    The fields are the ones this file uses, with the integer types their use
    here shows: the option entries of [main] are [int], the zone counts and
    the grid dimensions are compared with the [unsigned int] loop index of
    [gzv_open], and the zone size is a byte count (64-bit unsigned). A grid
    cell holds a zone number and a reference to a zone, here the index of the
    zone in the zone array. *)
Record zbd_info : Type := mk_zbd_info {
  zone_size : Z
}.

Record gzv_zone : Type := mk_gzv_zone {
  zno : Z;
  blkz : option nat
}.

Record gzv_t : Type := mk_gzv {
  refresh_interval : Z                       (* int *);
  block_size : Z                             (* int *);
  path : option string                       (* char *, None is NULL *);
  dev_fd : Z                                 (* int *);
  info : zbd_info                            (* struct zbd_info *);
  nr_zones : Z                               (* unsigned int *);
  nr_conv_zones : Z                          (* unsigned int *);
  zones : option (list blk_zone)             (* struct blk_zone *, None is NULL *);
  nr_row : Z                                 (* unsigned int *);
  nr_col : Z                                 (* unsigned int *);
  max_row : Z                                (* unsigned int *);
  nr_grid_zones : Z                          (* unsigned int *);
  grid_zones : option (list gzv_zone)        (* struct gzv_zone *, None is NULL *)
}.

(** Assignments to one field of the state. *)
Definition set_refresh_interval (v : Z) (g : gzv_t) : gzv_t :=
  {| refresh_interval := v;
     block_size := block_size g;
     path := path g;
     dev_fd := dev_fd g;
     info := info g;
     nr_zones := nr_zones g;
     nr_conv_zones := nr_conv_zones g;
     zones := zones g;
     nr_row := nr_row g;
     nr_col := nr_col g;
     max_row := max_row g;
     nr_grid_zones := nr_grid_zones g;
     grid_zones := grid_zones g |}.

Definition set_block_size (v : Z) (g : gzv_t) : gzv_t :=
  {| refresh_interval := refresh_interval g;
     block_size := v;
     path := path g;
     dev_fd := dev_fd g;
     info := info g;
     nr_zones := nr_zones g;
     nr_conv_zones := nr_conv_zones g;
     zones := zones g;
     nr_row := nr_row g;
     nr_col := nr_col g;
     max_row := max_row g;
     nr_grid_zones := nr_grid_zones g;
     grid_zones := grid_zones g |}.

Definition set_path (v : option string) (g : gzv_t) : gzv_t :=
  {| refresh_interval := refresh_interval g;
     block_size := block_size g;
     path := v;
     dev_fd := dev_fd g;
     info := info g;
     nr_zones := nr_zones g;
     nr_conv_zones := nr_conv_zones g;
     zones := zones g;
     nr_row := nr_row g;
     nr_col := nr_col g;
     max_row := max_row g;
     nr_grid_zones := nr_grid_zones g;
     grid_zones := grid_zones g |}.

Definition set_dev_fd (v : Z) (g : gzv_t) : gzv_t :=
  {| refresh_interval := refresh_interval g;
     block_size := block_size g;
     path := path g;
     dev_fd := v;
     info := info g;
     nr_zones := nr_zones g;
     nr_conv_zones := nr_conv_zones g;
     zones := zones g;
     nr_row := nr_row g;
     nr_col := nr_col g;
     max_row := max_row g;
     nr_grid_zones := nr_grid_zones g;
     grid_zones := grid_zones g |}.

Definition set_info (v : zbd_info) (g : gzv_t) : gzv_t :=
  {| refresh_interval := refresh_interval g;
     block_size := block_size g;
     path := path g;
     dev_fd := dev_fd g;
     info := v;
     nr_zones := nr_zones g;
     nr_conv_zones := nr_conv_zones g;
     zones := zones g;
     nr_row := nr_row g;
     nr_col := nr_col g;
     max_row := max_row g;
     nr_grid_zones := nr_grid_zones g;
     grid_zones := grid_zones g |}.

Definition set_nr_zones (v : Z) (g : gzv_t) : gzv_t :=
  {| refresh_interval := refresh_interval g;
     block_size := block_size g;
     path := path g;
     dev_fd := dev_fd g;
     info := info g;
     nr_zones := v;
     nr_conv_zones := nr_conv_zones g;
     zones := zones g;
     nr_row := nr_row g;
     nr_col := nr_col g;
     max_row := max_row g;
     nr_grid_zones := nr_grid_zones g;
     grid_zones := grid_zones g |}.

Definition set_nr_conv_zones (v : Z) (g : gzv_t) : gzv_t :=
  {| refresh_interval := refresh_interval g;
     block_size := block_size g;
     path := path g;
     dev_fd := dev_fd g;
     info := info g;
     nr_zones := nr_zones g;
     nr_conv_zones := v;
     zones := zones g;
     nr_row := nr_row g;
     nr_col := nr_col g;
     max_row := max_row g;
     nr_grid_zones := nr_grid_zones g;
     grid_zones := grid_zones g |}.

Definition set_zones (v : option (list blk_zone)) (g : gzv_t) : gzv_t :=
  {| refresh_interval := refresh_interval g;
     block_size := block_size g;
     path := path g;
     dev_fd := dev_fd g;
     info := info g;
     nr_zones := nr_zones g;
     nr_conv_zones := nr_conv_zones g;
     zones := v;
     nr_row := nr_row g;
     nr_col := nr_col g;
     max_row := max_row g;
     nr_grid_zones := nr_grid_zones g;
     grid_zones := grid_zones g |}.

Definition set_nr_row (v : Z) (g : gzv_t) : gzv_t :=
  {| refresh_interval := refresh_interval g;
     block_size := block_size g;
     path := path g;
     dev_fd := dev_fd g;
     info := info g;
     nr_zones := nr_zones g;
     nr_conv_zones := nr_conv_zones g;
     zones := zones g;
     nr_row := v;
     nr_col := nr_col g;
     max_row := max_row g;
     nr_grid_zones := nr_grid_zones g;
     grid_zones := grid_zones g |}.

Definition set_nr_col (v : Z) (g : gzv_t) : gzv_t :=
  {| refresh_interval := refresh_interval g;
     block_size := block_size g;
     path := path g;
     dev_fd := dev_fd g;
     info := info g;
     nr_zones := nr_zones g;
     nr_conv_zones := nr_conv_zones g;
     zones := zones g;
     nr_row := nr_row g;
     nr_col := v;
     max_row := max_row g;
     nr_grid_zones := nr_grid_zones g;
     grid_zones := grid_zones g |}.

Definition set_max_row (v : Z) (g : gzv_t) : gzv_t :=
  {| refresh_interval := refresh_interval g;
     block_size := block_size g;
     path := path g;
     dev_fd := dev_fd g;
     info := info g;
     nr_zones := nr_zones g;
     nr_conv_zones := nr_conv_zones g;
     zones := zones g;
     nr_row := nr_row g;
     nr_col := nr_col g;
     max_row := v;
     nr_grid_zones := nr_grid_zones g;
     grid_zones := grid_zones g |}.

Definition set_nr_grid_zones (v : Z) (g : gzv_t) : gzv_t :=
  {| refresh_interval := refresh_interval g;
     block_size := block_size g;
     path := path g;
     dev_fd := dev_fd g;
     info := info g;
     nr_zones := nr_zones g;
     nr_conv_zones := nr_conv_zones g;
     zones := zones g;
     nr_row := nr_row g;
     nr_col := nr_col g;
     max_row := max_row g;
     nr_grid_zones := v;
     grid_zones := grid_zones g |}.

Definition set_grid_zones (v : option (list gzv_zone)) (g : gzv_t) : gzv_t :=
  {| refresh_interval := refresh_interval g;
     block_size := block_size g;
     path := path g;
     dev_fd := dev_fd g;
     info := info g;
     nr_zones := nr_zones g;
     nr_conv_zones := nr_conv_zones g;
     zones := zones g;
     nr_row := nr_row g;
     nr_col := nr_col g;
     max_row := max_row g;
     nr_grid_zones := nr_grid_zones g;
     grid_zones := v |}.

(** ** Collaborators and the record of their calls *)

(** The two heap blocks the session owns. *)
Inductive block : Type := ZoneArray | GridArray.

(** What [free] is handed: [None] is the null pointer. *)
Definition zones_ptr (g : gzv_t) : option block :=
  match zones g with Some _ => Some ZoneArray | None => None end.

Definition grid_ptr (g : gzv_t) : option block :=
  match grid_zones g with Some _ => Some GridArray | None => None end.

Inductive event : Type :=
| EvZbdOpen (p : option string)
| EvZbdClose (fd : Z)
| EvZbdListZones (fd : Z)
| EvZbdReportZones (fd ofst len nr : Z)
| EvCalloc (n : Z)
| EvFree (p : option block)
| EvSetLogLevel
| EvSignalHandlers
| EvIfCreate
| EvGtkMain
| EvIfDestroy.

#[global] Instance block_eq_dec : EqDecision block.
Proof. solve_decision. Defined.

(** Modelled from the spec: the device driver API (libzbd), the allocator and
    the system calls of the signal set-up are not part of the sources. Each is
    a function of its arguments:
    - [zbd_open path] gives the descriptor (negative on failure) and the
      device geometry;
    - [zbd_list_zones fd] gives the status and, when the status is 0, the
      array of all zones with values in bytes;
    - [zbd_report_zones fd ofst len nr] gives the status and the zones the
      device reports for the byte range, which the call stores from the start
      of the array it is handed; [nr] is the capacity of that array;
    - [calloc_ok n] tells whether the allocation of [n] grid cells succeeds;
    - [pipe_ret], [getfl_ret] and [setfl_ret] are the results of [pipe] and of
      the two [fcntl] calls. *)
Record env : Type := mk_env {
  zbd_open : option string -> Z * zbd_info;
  zbd_list_zones : Z -> Z * list blk_zone;
  zbd_report_zones : Z -> Z -> Z -> Z -> Z * list blk_zone;
  calloc_ok : Z -> bool;
  pipe_ret : Z;
  getfl_ret : Z;
  setfl_ret : Z
}.

(** The global [gzv] together with the calls made so far, oldest first. *)
Record world : Type := mk_world {
  gzv : gzv_t;
  trace : list event
}.

Definition emit (evs : list event) (w : world) : world :=
  {| gzv := gzv w; trace := trace w ++ evs |}.

Definition upd (f : gzv_t -> gzv_t) (w : world) : world :=
  {| gzv := f (gzv w); trace := trace w |}.

(** ** [gzv_close] *)

(** [if (gzv.dev_fd < 0) return;
     zbd_close(gzv.dev_fd); gzv.dev_fd = -1;
     free(gzv.zones); free(gzv.grid_zones);] *)
Definition gzv_close (w : world) : world :=
  let g := gzv w in
  if dev_fd g <? 0 then w
  else
    upd (set_dev_fd (-1))
      (emit [EvZbdClose (dev_fd g); EvFree (zones_ptr g); EvFree (grid_ptr g)] w).

(** ** Loops and arithmetic of [gzv_open] *)

(** Unsigned division; a zero divisor traps. *)
Definition udiv (a b : Z) : result Z :=
  if b =? 0 then Fault else Ok (Z.quot a b).

(** [for (i = start; cond; i++) body] with an [unsigned int] index. *)
Fixpoint for_u32 {S : Type} (fuel : nat) (cond : Z -> bool)
    (body : Z -> S -> result S) (i : Z) (s : S) : result S :=
  match fuel with
  | O => if cond i then OutOfFuel else Ok s
  | Datatypes.S fuel' =>
      if cond i then
        s' ← body i s; for_u32 fuel' cond body (u32 (i + 1)) s'
      else Ok s
  end.

(** [if (zbd_zone_conventional(&gzv.zones[i])) gzv.nr_conv_zones++;] *)
Definition count_conv_body (mem : list blk_zone) (i : Z) (n : Z) : result Z :=
  match mem !! Z.to_nat i with
  | None => Fault
  | Some z => Ok (if zbd_zone_conventional z then u32 (n + 1) else n)
  end.

(** The grid geometry, lines "Set defaults" to [gzv.max_row = ...].
    [sqrt] is the double-precision square root and its result is truncated
    by the assignment; on the branch that calls it the argument is below 100,
    where this is the integer square root. *)
Definition set_defaults (g : gzv_t) : result gzv_t :=
  g1 ← (if (nr_col g =? 0) && (nr_row g =? 0) && (nr_zones g <? 100) then
          let c := Z.sqrt (nr_zones g) in
          r ← udiv (u32 (nr_zones g + c - 1)) c;
          Ok (set_nr_row r (set_nr_col c g))
        else
          let g' := if nr_col g =? 0 then set_nr_col 10 g else g in
          Ok (if nr_row g' =? 0 then set_nr_row 10 g' else g'));
  m ← udiv (u32 (nr_zones g1 + nr_col g1 - 1)) (nr_col g1);
  Ok (set_max_row m g1).

(** [gzv.grid_zones[i].zno = i; gzv.grid_zones[i].blkz = &gzv.zones[i];] *)
Definition grid_assign_body (i : Z) (grid : list gzv_zone)
    : result (list gzv_zone) :=
  match grid !! Z.to_nat i with
  | None => Fault
  | Some c =>
      let c1 := {| zno := i; blkz := blkz c |} in
      Ok (<[Z.to_nat i := {| zno := zno c1; blkz := Some (Z.to_nat i) |}]> grid)
  end.

(** A cell as [calloc] leaves it. *)
Definition zero_cell : gzv_zone := {| zno := 0; blkz := None |}.

Definition ENOMEM : Z := 12.

(** ** [gzv_open] *)

(** The label [out]: [if (ret) gzv_close(); return ret;] *)
Definition gzv_open_out (w : world) (ret : Z) : result (world * Z) :=
  Ok (if ret =? 0 then w else gzv_close w, ret).

(** The lines from the call of [gzv_fix_zone_values] to the end of
    [gzv_open]; [mem] is the array [gzv.zones] points to and [ret] is 0. *)
Definition gzv_open_grid (e : env) (w : world) (mem : list blk_zone) (ret : Z)
    : result (world * Z) :=
  mem' ← gzv_fix_zone_values (block_size (gzv w)) mem 0
            (int_of_u32 (nr_zones (gzv w)));
  let w := upd (set_zones (Some mem')) w in
  nconv ← for_u32 (Z.to_nat (nr_zones (gzv w)))
             (fun i => i <? nr_zones (gzv w))
             (count_conv_body mem') 0 (nr_conv_zones (gzv w));
  let w := upd (set_nr_conv_zones nconv) w in
  g ← set_defaults (gzv w);
  let w := upd (fun _ => g) w in
  (* gzv.nr_grid_zones = gzv.nr_col * gzv.nr_row; *)
  let w := upd (set_nr_grid_zones (u32 (nr_col g * nr_row g))) w in
  (* gzv.grid_zones = calloc(gzv.nr_grid_zones, sizeof(struct gzv_zone)); *)
  let n := nr_grid_zones (gzv w) in
  let w := emit [EvCalloc n] w in
  if calloc_ok e n then
    let w := upd (set_grid_zones (Some (replicate (Z.to_nat n) zero_cell))) w in
    grid ← for_u32 (Z.to_nat (nr_zones (gzv w)))
              (fun i => (i <? nr_grid_zones (gzv w)) && (i <? nr_zones (gzv w)))
              grid_assign_body 0 (replicate (Z.to_nat n) zero_cell);
    gzv_open_out (upd (set_grid_zones (Some grid)) w) ret
  else
    gzv_open_out (upd (set_grid_zones None) w) (- ENOMEM).

(** [static int gzv_open(void)] *)
Definition gzv_open (e : env) (w : world) : result (world * Z) :=
  (* gzv.dev_fd = zbd_open(gzv.path, O_RDONLY, &gzv.info); *)
  let '(fd, inf) := zbd_open e (path (gzv w)) in
  let w := emit [EvZbdOpen (path (gzv w))] w in
  let w := upd (set_dev_fd fd) w in
  if fd <? 0 then Ok (w, -1)
  else
    let w := upd (set_info inf) w in
    if (block_size (gzv w) >? 1)
       && negb (Z.rem (zone_size (info (gzv w))) (u64 (block_size (gzv w))) =? 0)
    then Ok (w, 1)
    else
      (* ret = zbd_list_zones(gzv.dev_fd, 0, 0, ZBD_RO_ALL, ...); *)
      let '(ret, zs) := zbd_list_zones e (dev_fd (gzv w)) in
      let w := emit [EvZbdListZones (dev_fd (gzv w))] w in
      let w :=
        if ret =? 0 then
          upd (set_nr_zones (u32 (Z.of_nat (length zs))))
            (upd (set_zones (Some zs)) w)
        else w in
      if negb (ret =? 0) || (nr_zones (gzv w) =? 0) then gzv_open_out w ret
      else
        match zones (gzv w) with
        | None => Fault
        | Some mem => gzv_open_grid e w mem ret
        end.

(** ** [main] *)

(** The option entries of [main]; [None] is an option that is not given. *)
Record options : Type := mk_options {
  opt_verbose : bool;
  opt_interval : option Z;
  opt_width : option Z;
  opt_height : option Z;
  opt_block : option Z
}.

(** [memset(&gzv, 0, sizeof(gzv)); gzv.dev_fd = -1; gzv.block_size = 1;] *)
Definition gzv_init : gzv_t :=
  {| refresh_interval := 0;
     block_size := 1;
     path := None;
     dev_fd := -1;
     info := {| zone_size := 0 |};
     nr_zones := 0;
     nr_conv_zones := 0;
     zones := None;
     nr_row := 0;
     nr_col := 0;
     max_row := 0;
     nr_grid_zones := 0;
     grid_zones := None |}.

(** [gtk_init_with_args] stores each option that is given, as an [int], in
    the field its entry points to; the two grid fields are unsigned. *)
Definition store_int (o : option Z) (set : Z -> gzv_t -> gzv_t) (g : gzv_t)
    : gzv_t :=
  match o with Some v => set (int_of_u32 v) g | None => g end.

Definition parse_options (o : options) (g : gzv_t) : gzv_t :=
  store_int (opt_block o) set_block_size
    (store_int (opt_height o) (fun v => set_nr_row (u32 v))
       (store_int (opt_width o) (fun v => set_nr_col (u32 v))
          (store_int (opt_interval o) set_refresh_interval g))).

(** [gzv_set_signal_handlers]: the exit status when one of its system calls
    fails ([exit(1)]), [None] when the handlers are installed. *)
Definition gzv_set_signal_handlers (e : env) : option Z :=
  if pipe_ret e <? 0 then Some 1
  else if getfl_ret e <? 0 then Some 1
  else if setfl_ret e <? 0 then Some 1
  else None.

(** [main] up to the call of [gzv_open]: either the exit of a start-up error
    (the state and the status) or the state [gzv_open] runs in. [parse_ok]
    tells whether [gtk_init_with_args] succeeded and [argv] is the argument
    vector it leaves. *)
Definition main_setup (parse_ok : bool) (o : options) (argv : list string)
    : (world * Z) + world :=
  if negb parse_ok then inl ({| gzv := gzv_init; trace := [] |}, 1)
  else
    let w := {| gzv := parse_options o gzv_init; trace := [] |} in
    if refresh_interval (gzv w) <? 0 then inl (w, 1)
    else if block_size (gzv w) <=? 0 then inl (w, 1)
    else if Z.of_nat (length argv) <? 2 then inl (w, 1)
    else
      let w := if opt_verbose o then emit [EvSetLogLevel] w else w in
      let w :=
        if refresh_interval (gzv w) =? 0
        then upd (set_refresh_interval 500) w else w in
      inr (upd (set_path (argv !! 1%nat)) w).

(** [main]: the exit status with the state and the calls made at exit. The
    interface phase ([gzv_if_create], [gtk_main], [gzv_if_destroy]) is
    recorded as calls only. *)
Definition main (e : env) (parse_ok : bool) (o : options) (argv : list string)
    : result (world * Z) :=
  match main_setup parse_ok o argv with
  | inl r => Ok r
  | inr w =>
      r ← gzv_open e w;
      if negb (r.2 =? 0) then Ok (r.1, 1)
      else
        match gzv_set_signal_handlers e with
        | Some c => Ok (r.1, c)
        | None =>
            Ok (emit [EvSignalHandlers; EvIfCreate; EvGtkMain; EvIfDestroy] r.1, 0)
        end
  end.

(** ** [gzv_report_zones] *)

(** The collaborator stores the zones it reports one after the other from
    the start of the array it is handed. *)
Fixpoint store_zones (mem : list blk_zone) (p : nat) (rep : list blk_zone)
    : result (list blk_zone) :=
  match rep with
  | [] => Ok mem
  | z :: rep' =>
      match mem !! p with
      | None => Fault
      | Some _ => store_zones (<[p := z]> mem) (S p) rep'
      end
  end.

(** [int gzv_report_zones(unsigned int zno_start, unsigned int nr_zones)].
    The call to [zbd_report_zones] gets the array at [&gzv.zones[zno_start]]
    and the address of [nrz], where it leaves the number of zones it
    reported. *)
Definition gzv_report_zones (e : env) (w : world) (zno_start nr_zones_arg : Z)
    : result (world * Z) :=
  let zno_start := u32 zno_start in
  let g := gzv w in
  if zno_start >=? nr_zones g then Ok (w, 0)
  else
    let nrz := u32 nr_zones_arg in
    let nrz :=
      if u32 (zno_start + nrz) >? nr_zones g
      then u32 (nr_zones g - zno_start) else nrz in
    match zones g with
    | None => Fault
    | Some mem =>
        match mem !! Z.to_nat zno_start with
        | None => Fault
        | Some z0 =>
            let ofst := zbd_zone_start z0 in
            let nbytes := u64 (nrz * zone_size (info g)) in
            let '(ret, rep) := zbd_report_zones e (dev_fd g) ofst nbytes nrz in
            let w := emit [EvZbdReportZones (dev_fd g) ofst nbytes nrz] w in
            mem1 ← store_zones mem (Z.to_nat zno_start) rep;
            let nrz := u32 (Z.of_nat (length rep)) in
            let w := upd (set_zones (Some mem1)) w in
            if negb (ret =? 0) then Ok (w, ret)
            else
              mem2 ← gzv_fix_zone_values (block_size g) mem1
                        (Z.to_nat zno_start) (int_of_u32 nrz);
              Ok (upd (set_zones (Some mem2)) w, 0)
        end
    end.

(** ** A simulated device *)

(** Modelled from the spec: a device is the list of its zones with values in
    bytes. Its reporting call answers with the zones that overlap the byte
    range, at most as many as the capacity it is told; its listing call
    answers with all zones. *)
Fixpoint take_upto (n : Z) (l : list blk_zone) : list blk_zone :=
  match l with
  | [] => []
  | z :: l' => if n <=? 0 then [] else z :: take_upto (n - 1) l'
  end.

Definition overlaps (ofst nbytes : Z) (z : blk_zone) : bool :=
  (ofst <? start z + len z) && (start z <? ofst + nbytes).

Definition sim_report (dev : list blk_zone) (fd ofst nbytes nr : Z)
    : Z * list blk_zone :=
  (0, take_upto nr (List.filter (overlaps ofst nbytes) dev)).

Definition sim_env (dev : list blk_zone) (zsz : Z) : env :=
  {| zbd_open := fun _ => (3, {| zone_size := zsz |});
     zbd_list_zones := fun _ => (0, dev);
     zbd_report_zones := sim_report dev;
     calloc_ok := fun _ => true;
     pipe_ret := 0;
     getfl_ret := 0;
     setfl_ret := 0 |}.

(** A sequential zone of [zsz] bytes, the [k]-th of its device, written up
    to [w] bytes. *)
Definition seq_zone (zsz k w : Z) : blk_zone :=
  {| start := k * zsz; len := zsz; wp := k * zsz + w;
     type := BLK_ZONE_TYPE_SEQWRITE_REQ; cond := 2 |}.

Definition conv_zone (zsz k wpv : Z) : blk_zone :=
  {| start := k * zsz; len := zsz; wp := wpv;
     type := BLK_ZONE_TYPE_CONVENTIONAL; cond := 0 |}.

(** The session as [main] leaves it before [gzv_open], for a block size and
    grid hints. *)
Definition session (bs col row : Z) : world :=
  {| gzv := set_nr_row row (set_nr_col col (set_block_size bs
              (set_refresh_interval 500 gzv_init)));
     trace := [] |}.

(** ** Example devices and sessions *)

(** Two zones of 4 bytes, the second written up to byte 6. *)
Definition dev2 : list blk_zone := [seq_zone 4 0 0; seq_zone 4 1 2].

(** Two zones of 10 bytes. *)
Definition dev10 : list blk_zone := [seq_zone 10 0 0; seq_zone 10 1 3].

(** Four zones of 8 bytes. *)
Definition dev4 : list blk_zone :=
  [seq_zone 8 0 0; seq_zone 8 1 2; seq_zone 8 2 0; seq_zone 8 3 0].

(** A session that holds a device and both arrays. *)
Definition held_session : world :=
  {| gzv := set_grid_zones (Some [zero_cell; zero_cell])
              (set_zones (Some dev2) (set_dev_fd 3 (gzv (session 1 0 0))));
     trace := [EvZbdOpen None; EvZbdListZones 3; EvCalloc 2] |}.

Definition no_options : options :=
  {| opt_verbose := false; opt_interval := None; opt_width := None;
     opt_height := None; opt_block := None |}.

Definition argv_dev : list string := ["gzbd-viewer"; "/dev/nullb0"]%string.

(** A device of [n] empty sequential zones of [zsz] bytes. *)
Definition seq_dev (n : nat) (zsz : Z) : list blk_zone :=
  (fun k => seq_zone zsz (Z.of_nat k) 0) <$> seq 0 n.

(** The state [main] hands to [gzv_open] when no option is given. *)
Definition plain_setup : world :=
  {| gzv := set_path (Some "/dev/nullb0"%string) (gzv (session 1 0 0));
     trace := [] |}.

(** The options [--block bs --width col --height row] and the state [main]
    hands to [gzv_open] for them. *)
Definition options_with (bs col row : Z) : options :=
  {| opt_verbose := false; opt_interval := None; opt_width := Some col;
     opt_height := Some row; opt_block := Some bs |}.

Definition setup_with (bs col row : Z) : world :=
  {| gzv := set_path (Some "/dev/nullb0"%string) (gzv (session bs col row));
     trace := [] |}.

(** A device of two conventional zones followed by three sequential zones,
    of 8 bytes each. *)
Definition dev_mixed : list blk_zone :=
  [conv_zone 8 0 0; conv_zone 8 1 0; seq_zone 8 2 3; seq_zone 8 3 0;
   seq_zone 8 4 8].

(** A collaborator like [sim_env] whose enumeration fails with a status, or
    whose allocator fails. *)
Definition sim_env_list_fails (dev : list blk_zone) (zsz st : Z) : env :=
  {| zbd_open := zbd_open (sim_env dev zsz);
     zbd_list_zones := fun _ => (st, []);
     zbd_report_zones := zbd_report_zones (sim_env dev zsz);
     calloc_ok := fun _ => true;
     pipe_ret := 0; getfl_ret := 0; setfl_ret := 0 |}.

Definition sim_env_no_memory (dev : list blk_zone) (zsz : Z) : env :=
  {| zbd_open := zbd_open (sim_env dev zsz);
     zbd_list_zones := zbd_list_zones (sim_env dev zsz);
     zbd_report_zones := zbd_report_zones (sim_env dev zsz);
     calloc_ok := fun _ => false;
     pipe_ret := 0; getfl_ret := 0; setfl_ret := 0 |}.

(** ** The layout as the specification words it *)

(** The quotient of [n] by [c] rounded up, for [c > 0]. *)
Definition ceil_div (n c : Z) : Z :=
  n / c + (if n mod c =? 0 then 0 else 1).

(** The grid for [n] zones and the hints [hc] (columns) and [hr] (rows),
    0 for a hint that is not given: columns, rows and populated rows. *)
Definition spec_layout (n hc hr : Z) : Z * Z * Z :=
  let cr :=
    if (hc =? 0) && (hr =? 0) && (n <? 100)
    then (Z.sqrt n, ceil_div n (Z.sqrt n))
    else (if hc =? 0 then 10 else hc, if hr =? 0 then 10 else hr) in
  (cr.1, cr.2, ceil_div n cr.1).

(** ** Ranges of the fields *)

(** The configuration as [main] leaves it: a block size that passed the
    check of [main], grid hints that are [unsigned int] values. *)
Definition config_ok (g : gzv_t) : Prop :=
  (1 <= block_size g <= INT_MAX) /\
  (0 <= nr_col g < UINT_MOD) /\
  (0 <= nr_row g < UINT_MOD).

(** An open session: the zone array has [gzv.nr_zones] entries. *)
Definition zones_ok (g : gzv_t) : Prop :=
  exists mem, zones g = Some mem /\
    Z.of_nat (length mem) = nr_zones g /\ nr_zones g < UINT_MOD.

(** The grid array as the assignment loop leaves it: cell [i] holds its own
    index and the reference to zone [i] below the smaller of the grid size
    and the zone count, and is as [calloc] left it above. *)
Definition grid_assigned (grid : list gzv_zone) (ng nz : Z) : Prop :=
  length grid = Z.to_nat ng /\
  forall i : nat,
    grid !! i =
      if decide (Z.of_nat i < Z.min ng nz)
      then Some {| zno := Z.of_nat i; blkz := Some i |}
      else if decide (Z.of_nat i < ng) then Some zero_cell else None.

(** What a successful [gzv_open] that found zones leaves in [w'], started
    in [w]: the device, the normalised zone array, the geometry and the
    grid. *)
Definition opened (e : env) (w w' : world) : Prop :=
  exists zs mem' grid,
    (dev_fd (gzv w'), info (gzv w')) = zbd_open e (path (gzv w)) /\
    0 <= dev_fd (gzv w') /\
    zbd_list_zones e (dev_fd (gzv w')) = (0, zs) /\
    block_size (gzv w') = block_size (gzv w) /\
    nr_zones (gzv w') = u32 (Z.of_nat (length zs)) /\
    gzv_fix_zone_values (block_size (gzv w)) zs 0
      (int_of_u32 (nr_zones (gzv w'))) = Ok mem' /\
    zones (gzv w') = Some mem' /\
    length mem' = length zs /\
    (nr_col (gzv w'), nr_row (gzv w')) =
      (spec_layout (nr_zones (gzv w')) (nr_col (gzv w)) (nr_row (gzv w))).1 /\
    (0 < nr_col (gzv w') < UINT_MOD) /\
    (0 < nr_row (gzv w') < UINT_MOD) /\
    max_row (gzv w') =
      Z.quot (u32 (nr_zones (gzv w') + nr_col (gzv w') - 1)) (nr_col (gzv w')) /\
    (nr_zones (gzv w') + nr_col (gzv w') - 1 < UINT_MOD ->
     max_row (gzv w') =
       (spec_layout (nr_zones (gzv w')) (nr_col (gzv w)) (nr_row (gzv w))).2) /\
    nr_grid_zones (gzv w') = u32 (nr_col (gzv w') * nr_row (gzv w')) /\
    grid_zones (gzv w') = Some grid /\
    grid_assigned grid (nr_grid_zones (gzv w')) (nr_zones (gzv w')).

(** ** Signal handling *)

(** Modelled from the spec: the byte channel between the signal handler and
    the main loop is the pipe [gzv.sig_pipe], a collaborator of this file.
    It holds the bytes written and not yet read, oldest first, up to a
    capacity. Both ends are non-blocking: a write that does not fit fails
    as a whole (it is shorter than [PIPE_BUF]) and a read from an empty pipe
    fails; both failures give -1. *)
Record sig_pipe_t : Type := mk_sig_pipe {
  pending : list Z;
  capacity : nat
}.

Definition pipe_write (buf : list Z) (p : sig_pipe_t) : sig_pipe_t * Z :=
  if decide (length (pending p) + length buf <= capacity p)%nat
  then ({| pending := pending p ++ buf; capacity := capacity p |},
        Z.of_nat (length buf))
  else (p, -1).

Definition pipe_read (count : nat) (p : sig_pipe_t) : sig_pipe_t * Z :=
  match pending p with
  | [] => (p, -1)
  | _ =>
      ({| pending := drop count (pending p); capacity := capacity p |},
       Z.of_nat (length (take count (pending p))))
  end.

(** The [sizeof(int)] bytes of an [int], lowest first. *)
Definition int_bytes (x : Z) : list Z :=
  [u32 x mod 256; (u32 x / 256) mod 256; (u32 x / 65536) mod 256;
   (u32 x / 16777216) mod 256].

(** [gzv_sig_handler]: the pipe after the call and whether the failure
    message was printed.
    [if (write(gzv.sig_pipe[1], &sig, sizeof(int)) < 0) printf(...);] *)
Definition gzv_sig_handler (sig : Z) (p : sig_pipe_t) : sig_pipe_t * bool :=
  let '(p', n) := pipe_write (int_bytes sig) p in
  (p', n <? 0).

(** The input condition of GLib's [GIOCondition]. *)
Definition G_IO_IN : Z := 1.
Definition G_IO_PRI : Z := 2.

(** [gzv_process_signal]: the pipe after the call, whether [gtk_main_quit]
    was called, and the value returned. The buffer has 32 bytes. *)
Definition gzv_process_signal (condition : Z) (p : sig_pipe_t)
    : sig_pipe_t * bool * bool :=
  if negb (Z.land condition G_IO_IN =? 0) then
    let '(p', size) := pipe_read 32 p in
    if size >? 0 then (p', true, true) else (p', false, false)
  else (p, false, false).

(** The handler run for each signal of a list, in order. *)
Definition deliver (sigs : list Z) (p : sig_pipe_t) : sig_pipe_t :=
  fold_left (fun q sig => (gzv_sig_handler sig q).1) sigs p.

(** ** Counting and references *)

(** The conventional zones of an array. *)
Definition conv_count (l : list blk_zone) : Z :=
  Z.of_nat (length (List.filter zbd_zone_conventional l)).

(** Every reference of a grid cell is the index of an entry of the zone
    array, and the cell carries that index as its zone number. *)
Definition grid_refs_ok (g : gzv_t) : Prop :=
  exists mem grid,
    zones g = Some mem /\ grid_zones g = Some grid /\
    forall (i : nat) (c : gzv_zone) (j : nat),
      grid !! i = Some c -> blkz c = Some j ->
      (j < length mem)%nat /\ zno c = Z.of_nat j /\ i = j.

(** The fields of the session other than the zone array. *)
Definition same_but_zones (g g' : gzv_t) : Prop :=
  refresh_interval g' = refresh_interval g /\
  block_size g' = block_size g /\
  path g' = path g /\
  dev_fd g' = dev_fd g /\
  info g' = info g /\
  nr_zones g' = nr_zones g /\
  nr_conv_zones g' = nr_conv_zones g /\
  nr_row g' = nr_row g /\
  nr_col g' = nr_col g /\
  max_row g' = max_row g /\
  nr_grid_zones g' = nr_grid_zones g /\
  grid_zones g' = grid_zones g.

(** A collaborator that reports no more zones than the capacity it is
    given, and lists arrays whose length fits the [unsigned int] count. *)
Definition report_within_capacity (e : env) : Prop :=
  forall fd ofst nbytes nr,
    0 <= nr ->
    Z.of_nat (length (zbd_report_zones e fd ofst nbytes nr).2) <= nr.

Definition list_fits_count (e : env) : Prop :=
  forall fd, Z.of_nat (length (zbd_list_zones e fd).2) <= INT_MAX.

(** The session [w'] that [gzv_open] leaves with status 0, started in [w]:
    what the collaborators answered and every field of the state. With no
    zone listed the geometry and the grid are not touched. *)
Definition open_done (e : env) (w w' : world) : Prop :=
  let fd := (zbd_open e (path (gzv w))).1 in
  let inf := (zbd_open e (path (gzv w))).2 in
  let zs := (zbd_list_zones e fd).2 in
  0 <= fd /\
  (zbd_list_zones e fd).1 = 0 /\
  (block_size (gzv w) = 1 \/ Z.rem (zone_size inf) (block_size (gzv w)) = 0) /\
  dev_fd (gzv w') = fd /\
  info (gzv w') = inf /\
  refresh_interval (gzv w') = refresh_interval (gzv w) /\
  block_size (gzv w') = block_size (gzv w) /\
  path (gzv w') = path (gzv w) /\
  nr_zones (gzv w') = Z.of_nat (length zs) /\
  zones (gzv w') = Some (fix_zone (block_size (gzv w)) <$> zs) /\
  nr_conv_zones (gzv w') = u32 (nr_conv_zones (gzv w) + conv_count zs) /\
  (zs = [] ->
   grid_zones (gzv w') = grid_zones (gzv w) /\
   nr_grid_zones (gzv w') = nr_grid_zones (gzv w) /\
   nr_col (gzv w') = nr_col (gzv w) /\
   nr_row (gzv w') = nr_row (gzv w) /\
   max_row (gzv w') = max_row (gzv w) /\
   trace w' = trace w ++ [EvZbdOpen (path (gzv w)); EvZbdListZones fd]) /\
  (zs <> [] ->
   exists grid,
     grid_zones (gzv w') = Some grid /\
     grid_assigned grid (nr_grid_zones (gzv w')) (nr_zones (gzv w')) /\
     nr_grid_zones (gzv w') = u32 (nr_col (gzv w') * nr_row (gzv w')) /\
     (nr_col (gzv w'), nr_row (gzv w')) =
       (spec_layout (nr_zones (gzv w')) (nr_col (gzv w)) (nr_row (gzv w))).1 /\
     (0 < nr_col (gzv w') < UINT_MOD) /\
     (0 < nr_row (gzv w') < UINT_MOD) /\
     max_row (gzv w') =
       Z.quot (u32 (nr_zones (gzv w') + nr_col (gzv w') - 1)) (nr_col (gzv w')) /\
     trace w' = trace w ++ [EvZbdOpen (path (gzv w)); EvZbdListZones fd;
                            EvCalloc (nr_grid_zones (gzv w'))]).

(** The session [gzv_open] leaves (the one it started in when it does not
    complete). *)
Definition after_open (e : env) (w : world) : world :=
  match gzv_open e w with Ok r => r.1 | _ => w end.

(** ** Re-queries in sequence *)

(** The calls [gzv_report_zones(zno_start, nr_zones)] of a list, one after
    the other, whatever status each returns. *)
Fixpoint report_seq (e : env) (w : world) (calls : list (Z * Z))
    : result world :=
  match calls with
  | [] => Ok w
  | (zno_start, nr) :: calls' =>
      r ← gzv_report_zones e w zno_start nr; report_seq e r.1 calls'
  end.

(** Calls whose arguments are [unsigned int] values with a sum in range. *)
Definition calls_in_range (calls : list (Z * Z)) : Prop :=
  Forall (fun c => 0 <= c.1 /\ 0 <= c.2 /\ c.1 + c.2 < UINT_MOD) calls.

(** An open session that re-queries keep: the zone array has [nr_zones]
    entries, a count in the range of [int], the block size is a positive
    [int], and the references of the grid are in the array. *)
Definition session_ok (g : gzv_t) : Prop :=
  zones_ok g /\ nr_zones g <= INT_MAX /\
  (1 <= block_size g <= INT_MAX) /\ grid_refs_ok g.

(** * Properties *)

(** ** Machine integers *)

Lemma u32_range x : 0 <= u32 x < UINT_MOD.
Proof. unfold u32, UINT_MOD. apply Z.mod_pos_bound. lia. Qed.

Lemma u32_small x : 0 <= x < UINT_MOD -> u32 x = x.
Proof. intros H. unfold u32. now apply Z.mod_small. Qed.

Lemma u64_small x : 0 <= x < ULL_MOD -> u64 x = x.
Proof. intros H. unfold u64. now apply Z.mod_small. Qed.

Lemma u64_int x : 1 <= x <= INT_MAX -> u64 x = x.
Proof. intros H. apply u64_small. unfold INT_MAX, ULL_MOD in *. lia. Qed.

Lemma int_of_u32_small x : 0 <= x <= INT_MAX -> int_of_u32 x = x.
Proof.
  intros H. unfold int_of_u32.
  rewrite u32_small by (unfold UINT_MOD, INT_MAX in *; lia).
  destruct (Z.leb_spec x INT_MAX); lia.
Qed.

Lemma int_of_u32_le x : int_of_u32 x <= u32 x.
Proof.
  unfold int_of_u32. cbv zeta.
  destruct (Z.leb_spec (u32 x) INT_MAX); unfold UINT_MOD; lia.
Qed.

(** ** Normalisation *)

Lemma fix_zone_one z : fix_zone 1 z = z.
Proof.
  destruct z as [s l w t c]. unfold fix_zone, u64, ULL_MOD. simpl.
  change (1 mod 2 ^ 64) with 1. rewrite !Z.quot_1_r.
  now destruct (zbd_zone_conventional _).
Qed.

Lemma fix_zone_conventional D z :
  zbd_zone_conventional (fix_zone D z) = zbd_zone_conventional z.
Proof. reflexivity. Qed.

(** The loop normalises the [n] zones from index [p] on and touches no
    other; it needs them to lie inside the array. *)
Lemma fix_zone_loop_lookup D n : forall p mem,
  u64 D <> 0 -> (p + n <= length mem)%nat ->
  exists mem', fix_zone_loop D n p mem = Ok mem' /\
    length mem' = length mem /\
    forall i, mem' !! i =
      if decide (p <= i < p + n)%nat then fix_zone D <$> mem !! i else mem !! i.
Proof.
  induction n as [|n IH]; intros p mem HD Hlen; simpl.
  - exists mem. split; [done|]. split; [done|]. intros i. case_decide; [lia|done].
  - destruct (lookup_lt_is_Some_2 mem p) as [z Hz]; [lia|].
    rewrite Hz. destruct (Z.eqb_spec (u64 D) 0) as [|_]; [done|].
    destruct (IH (S p) (<[p := fix_zone D z]> mem) HD) as (mem' & Hrun & Hl & Hlk).
    { rewrite length_insert. lia. }
    exists mem'. split; [done|]. rewrite Hl, length_insert. split; [done|].
    intros i. rewrite Hlk. destruct (decide (i = p)) as [->|Hne].
    + rewrite list_lookup_insert_eq by lia. rewrite Hz.
      repeat case_decide; try lia; done.
    + rewrite list_lookup_insert_ne by done.
      repeat case_decide; try lia; done.
Qed.

(** On a whole array the function is the map of [fix_zone]. *)
Lemma gzv_fix_zone_values_all D mem :
  1 <= D <= INT_MAX ->
  gzv_fix_zone_values D mem 0 (Z.of_nat (length mem)) = Ok (fix_zone D <$> mem).
Proof.
  intros HD. unfold gzv_fix_zone_values.
  destruct (Z.eqb_spec D 1) as [->|Hne].
  - f_equal. apply list_eq. intros i. rewrite list_lookup_fmap.
    destruct (mem !! i); simpl; [by rewrite fix_zone_one|done].
  - rewrite Nat2Z.id.
    destruct (fix_zone_loop_lookup D (length mem) 0 mem) as (mem' & -> & _ & Hlk).
    { rewrite u64_int by done. lia. }
    { lia. }
    f_equal. apply list_eq. intros i. rewrite Hlk, list_lookup_fmap.
    case_decide as Hi; [done|].
    rewrite lookup_ge_None_2 by lia. done.
Qed.

(** C5. For a divisor [D >= 1] and an array of zones in bytes,
    [gzv_fix_zone_values] replaces the start and the length of each zone by
    their truncating quotients by [D], the write pointer by its quotient by
    [D] when the zone is not conventional, leaves the write pointer of a
    conventional zone as it is and changes no other field. *)
Theorem gzv_fix_zone_values_normalizes (D : Z) (mem : list blk_zone) :
  1 <= D <= INT_MAX ->
  exists mem',
    gzv_fix_zone_values D mem 0 (Z.of_nat (length mem)) = Ok mem' /\
    length mem' = length mem /\
    forall i z, mem !! i = Some z ->
      exists z', mem' !! i = Some z' /\
        start z' = Z.quot (start z) D /\
        len z' = Z.quot (len z) D /\
        wp z' = (if zbd_zone_conventional z then wp z else Z.quot (wp z) D) /\
        type z' = type z /\
        cond z' = cond z.
Proof.
  intros HD. exists (fix_zone D <$> mem).
  split; [by apply gzv_fix_zone_values_all|].
  split; [by rewrite length_fmap|].
  intros i z Hz. exists (fix_zone D z).
  rewrite list_lookup_fmap, Hz. unfold fix_zone. simpl.
  rewrite u64_int by done. done.
Qed.

Lemma gzv_fix_zone_values_normalizes_witness :
  exists mem',
    gzv_fix_zone_values 512 [conv_zone 4096 0 7; seq_zone 4096 1 1000] 0 2
      = Ok mem' /\
    wp <$> mem' !! 0%nat = Some 7 /\
    start <$> mem' !! 1%nat = Some 8 /\
    len <$> mem' !! 1%nat = Some 8 /\
    wp <$> mem' !! 1%nat = Some 9.
Proof.
  destruct (gzv_fix_zone_values_normalizes 512
              [conv_zone 4096 0 7; seq_zone 4096 1 1000])
    as (mem' & Hrun & _ & Hzones); [unfold INT_MAX; lia|].
  exists mem'. split; [exact Hrun|].
  destruct (Hzones 0%nat _ eq_refl) as (z0 & -> & _ & _ & Hwp0 & _).
  destruct (Hzones 1%nat _ eq_refl) as (z1 & -> & Hs1 & Hl1 & Hwp1 & _).
  simpl in *. rewrite Hwp0, Hs1, Hl1, Hwp1. repeat split.
Defined.

(** C6, as stated, fails: a second pass with divisor 2 over a zone that
    starts at byte 4 turns the normalised start 2 into 1. *)
Lemma gzv_fix_zone_values_twice_differs :
  gzv_fix_zone_values 2 [seq_zone 4 1 2] 0 1
    = Ok [mk_blk_zone 2 2 3 BLK_ZONE_TYPE_SEQWRITE_REQ 2] /\
  gzv_fix_zone_values 2 [mk_blk_zone 2 2 3 BLK_ZONE_TYPE_SEQWRITE_REQ 2] 0 1
    = Ok [mk_blk_zone 1 1 1 BLK_ZONE_TYPE_SEQWRITE_REQ 2] /\
  [mk_blk_zone 1 1 1 BLK_ZONE_TYPE_SEQWRITE_REQ 2]
    <> [mk_blk_zone 2 2 3 BLK_ZONE_TYPE_SEQWRITE_REQ 2].
Proof. repeat split; try reflexivity. discriminate. Qed.

(** C6, amended. A second pass is a second division: after two passes each
    start and length is the quotient of the byte value by [D * D], and so is
    the write pointer of a zone that is not conventional. A further pass
    leaves the array unchanged when [D = 1]. *)
Theorem gzv_fix_zone_values_twice (D : Z) (mem : list blk_zone) :
  1 <= D <= INT_MAX ->
  exists mem1 mem2,
    gzv_fix_zone_values D mem 0 (Z.of_nat (length mem)) = Ok mem1 /\
    gzv_fix_zone_values D mem1 0 (Z.of_nat (length mem1)) = Ok mem2 /\
    (D = 1 -> mem2 = mem1) /\
    forall i z, mem !! i = Some z ->
      exists z2, mem2 !! i = Some z2 /\
        start z2 = Z.quot (start z) (D * D) /\
        len z2 = Z.quot (len z) (D * D) /\
        wp z2 = (if zbd_zone_conventional z then wp z else Z.quot (wp z) (D * D)).
Proof.
  intros HD. exists (fix_zone D <$> mem), (fix_zone D <$> (fix_zone D <$> mem)).
  split; [by apply gzv_fix_zone_values_all|].
  split; [by apply gzv_fix_zone_values_all|].
  split.
  - intros ->. apply list_eq. intros i. rewrite !list_lookup_fmap.
    destruct (mem !! i); simpl; [by rewrite !fix_zone_one|done].
  - intros i z Hz. exists (fix_zone D (fix_zone D z)).
    rewrite !list_lookup_fmap, Hz. split; [done|].
    unfold fix_zone at 1 3 5. simpl. rewrite fix_zone_conventional.
    unfold fix_zone. simpl. rewrite u64_int by done.
    destruct (zbd_zone_conventional z);
      rewrite ?Z.quot_quot by lia; auto.
Qed.

Lemma gzv_fix_zone_values_twice_witness :
  exists mem1 mem2,
    gzv_fix_zone_values 2 [seq_zone 8 1 4] 0 1 = Ok mem1 /\
    gzv_fix_zone_values 2 mem1 0 (Z.of_nat (length mem1)) = Ok mem2 /\
    start <$> mem2 !! 0%nat = Some 2 /\
    len <$> mem2 !! 0%nat = Some 2 /\
    wp <$> mem2 !! 0%nat = Some 3.
Proof.
  destruct (gzv_fix_zone_values_twice 2 [seq_zone 8 1 4])
    as (mem1 & mem2 & Hrun1 & Hrun2 & _ & Hzones); [unfold INT_MAX; lia|].
  exists mem1, mem2. split; [exact Hrun1|]. split; [exact Hrun2|].
  destruct (Hzones 0%nat _ eq_refl) as (z2 & -> & Hs & Hl & Hwp).
  simpl in *. rewrite Hs, Hl, Hwp. repeat split.
Defined.

(** ** Closing the session *)

(** C7. [gzv_close] on a closed session changes nothing and makes no call;
    a second [gzv_close] after a first one changes nothing, so that two calls
    in a row close the device once and free each array once. *)
Theorem gzv_close_idempotent (w : world) :
  (dev_fd (gzv w) < 0 -> gzv_close w = w) /\
  dev_fd (gzv (gzv_close w)) < 0 /\
  gzv_close (gzv_close w) = gzv_close w /\
  (0 <= dev_fd (gzv w) ->
   trace (gzv_close (gzv_close w)) =
     trace w ++ [EvZbdClose (dev_fd (gzv w)); EvFree (zones_ptr (gzv w));
                 EvFree (grid_ptr (gzv w))]).
Proof.
  assert (Hclosed : forall v, dev_fd (gzv v) < 0 -> gzv_close v = v).
  { intros v Hv. unfold gzv_close.
    destruct (Z.ltb_spec (dev_fd (gzv v)) 0); [done|lia]. }
  assert (Hneg : dev_fd (gzv (gzv_close w)) < 0).
  { unfold gzv_close. destruct (Z.ltb_spec (dev_fd (gzv w)) 0); simpl; lia. }
  repeat split; auto.
  intros Hfd. rewrite Hclosed by done.
  unfold gzv_close. destruct (Z.ltb_spec (dev_fd (gzv w)) 0); [lia|done].
Qed.

Lemma gzv_close_idempotent_witness :
  gzv_close (session 1 0 0) = session 1 0 0 /\
  gzv_close (gzv_close held_session) = gzv_close held_session /\
  trace (gzv_close (gzv_close held_session)) =
    trace held_session ++ [EvZbdClose 3; EvFree (Some ZoneArray);
                           EvFree (Some GridArray)].
Proof.
  split.
  - destruct (gzv_close_idempotent (session 1 0 0)) as (Hnoop & _).
    apply Hnoop. simpl. lia.
  - destruct (gzv_close_idempotent held_session) as (_ & _ & Hsame & Hcalls).
    split; [exact Hsame|]. apply Hcalls. simpl. lia.
Defined.

(** ** Start-up *)

Lemma refresh_interval_parse o :
  refresh_interval (parse_options o gzv_init) =
    match opt_interval o with Some v => int_of_u32 v | None => 0 end.
Proof. destruct o as [vb [i|] [c|] [r|] [b|]]; reflexivity. Qed.

Lemma block_size_parse o :
  block_size (parse_options o gzv_init) =
    match opt_block o with Some v => int_of_u32 v | None => 1 end.
Proof. destruct o as [vb [i|] [c|] [r|] [b|]]; reflexivity. Qed.

(** C9, as stated, fails: with the interval option given as 0 the program
    does not stop at start-up; it opens the device, creates the interface
    and runs with an interval of 500. *)
Lemma main_interval_zero_runs :
  exists w,
    main (sim_env dev2 4) true
      {| opt_verbose := false; opt_interval := Some 0; opt_width := None;
         opt_height := None; opt_block := None |} argv_dev = Ok (w, 0) /\
    refresh_interval (gzv w) = 500 /\
    trace w = [EvZbdOpen (Some "/dev/nullb0"%string); EvZbdListZones 3;
               EvCalloc 2; EvSignalHandlers; EvIfCreate; EvGtkMain;
               EvIfDestroy].
Proof. eexists. split; [vm_compute; reflexivity|]. split; reflexivity. Qed.

(** C9, amended. A missing device path, an interval below 0 and a block
    value of 0 or less each end [main] with status 1 before any call to the
    device or to the interface. Otherwise [gzv_open] runs with the interval
    500 when the option is absent or given as 0 (and the given value when it
    is positive), and with the block size 1 when that option is absent. *)
Theorem main_startup (e : env) (o : options) (argv : list string) :
  ((exists v, opt_interval o = Some v /\ int_of_u32 v < 0) \/
   (exists v, opt_block o = Some v /\ int_of_u32 v <= 0) \/
   (length argv < 2)%nat ->
   exists w, main e true o argv = Ok (w, 1) /\ trace w = []) /\
  (forall w, main_setup true o argv = inr w ->
     refresh_interval (gzv w) =
       match opt_interval o with
       | None => 500
       | Some v => if int_of_u32 v =? 0 then 500 else int_of_u32 v
       end /\
     0 < refresh_interval (gzv w) /\
     block_size (gzv w) =
       match opt_block o with None => 1 | Some v => int_of_u32 v end /\
     0 < block_size (gzv w) /\
     path (gzv w) = argv !! 1%nat /\ is_Some (argv !! 1%nat)).
Proof.
  pose proof (refresh_interval_parse o) as Hi.
  pose proof (block_size_parse o) as Hb.
  split.
  - intros Herr. unfold main, main_setup. simpl.
    destruct (Z.ltb_spec (refresh_interval (parse_options o gzv_init)) 0);
      [eexists; split; reflexivity|].
    destruct (Z.leb_spec (block_size (parse_options o gzv_init)) 0);
      [eexists; split; reflexivity|].
    destruct (Z.ltb_spec (Z.of_nat (length argv)) 2);
      [eexists; split; reflexivity|].
    exfalso. destruct Herr as [(v & Hv & Hneg)|[(v & Hv & Hneg)|Hlen]].
    + rewrite Hv in Hi. lia.
    + rewrite Hv in Hb. lia.
    + lia.
  - intros w. unfold main_setup. simpl.
    destruct (Z.ltb_spec (refresh_interval (parse_options o gzv_init)) 0);
      [done|].
    destruct (Z.leb_spec (block_size (parse_options o gzv_init)) 0); [done|].
    destruct (Z.ltb_spec (Z.of_nat (length argv)) 2); [done|].
    intros [= <-].
    assert (Hpath : is_Some (argv !! 1%nat)) by (apply lookup_lt_is_Some_2; lia).
    destruct (opt_verbose o);
      destruct (Z.eqb_spec (refresh_interval (parse_options o gzv_init)) 0)
        as [Hz|Hz]; simpl;
      rewrite ?Z.eqb_refl; simpl;
      destruct (Z.eqb_spec (refresh_interval (parse_options o gzv_init)) 0);
      try lia; simpl; rewrite ?Hb;
      destruct (opt_interval o) as [v|], (opt_block o) as [b|];
      rewrite ?Hi in *;
      repeat match goal with
             | |- context [?x =? 0] => destruct (Z.eqb_spec x 0)
             end;
      repeat split; auto; try lia.
Qed.

Lemma main_startup_witness :
  (exists w,
     main (sim_env dev2 4) true
       {| opt_verbose := false; opt_interval := Some (-5); opt_width := None;
          opt_height := None; opt_block := None |} argv_dev = Ok (w, 1) /\
     trace w = []) /\
  refresh_interval (gzv plain_setup) = 500 /\
  block_size (gzv plain_setup) = 1.
Proof.
  split.
  - apply (main_startup (sim_env dev2 4)
             {| opt_verbose := false; opt_interval := Some (-5);
                opt_width := None; opt_height := None; opt_block := None |}
             argv_dev).
    left. exists (-5). split; [reflexivity|]. vm_compute. reflexivity.
  - destruct (main_startup (sim_env dev2 4) no_options argv_dev) as [_ Hrun].
    destruct (Hrun plain_setup eq_refl) as (Hi & _ & Hb & _).
    split; [exact Hi|exact Hb].
Defined.

(** ** Counted loops *)

(** A loop that runs for [i = 0 .. n-1] keeps an invariant its body keeps,
    and ends when it is given at least [n] rounds of fuel. *)
Lemma for_u32_inv {S : Type} (I : Z -> S -> Prop) (cond : Z -> bool)
    (body : Z -> S -> result S) (n : Z) :
  0 <= n < UINT_MOD ->
  (forall i, 0 <= i < n -> cond i = true) ->
  cond n = false ->
  (forall i s, 0 <= i < n -> I i s -> exists s', body i s = Ok s' /\ I (i + 1) s') ->
  forall fuel i s,
    0 <= i <= n -> n - i <= Z.of_nat fuel -> I i s ->
    exists s', for_u32 fuel cond body i s = Ok s' /\ I n s'.
Proof.
  intros Hn Htrue Hfalse Hbody.
  induction fuel as [|fuel IH]; intros i s Hi Hfuel HI; simpl.
  - assert (i = n) as -> by lia. rewrite Hfalse. eauto.
  - destruct (Z.eq_dec i n) as [->|Hne].
    + rewrite Hfalse. eauto.
    + rewrite Htrue by lia.
      destruct (Hbody i s) as (s' & -> & HI'); [lia|done|]. simpl.
      rewrite u32_small by lia. apply IH; [lia|lia|done].
Qed.

Lemma u32_of_length_le (n : nat) : u32 (Z.of_nat n) <= Z.of_nat n.
Proof. unfold u32, UINT_MOD. apply Z.mod_le; lia. Qed.

(** The loop that counts the conventional zones ends. *)
Lemma count_conv_loop_run (mem : list blk_zone) (nz n0 : Z) :
  0 <= nz < UINT_MOD -> nz <= Z.of_nat (length mem) ->
  exists n, for_u32 (Z.to_nat nz) (fun i => i <? nz) (count_conv_body mem) 0 n0 = Ok n.
Proof.
  intros Hnz Hlen.
  assert (Htrue : forall i, 0 <= i < nz -> (i <? nz) = true).
  { intros i Hi. apply Z.ltb_lt. lia. }
  assert (Hbody : forall i (s : Z), 0 <= i < nz -> True ->
            exists s', count_conv_body mem i s = Ok s' /\ True).
  { intros i s Hi _. unfold count_conv_body.
    destruct (lookup_lt_is_Some_2 mem (Z.to_nat i)) as [z ->]; [lia|]. eauto. }
  destruct (for_u32_inv (fun _ _ => True) (fun i => i <? nz)
              (count_conv_body mem) nz Hnz Htrue (Z.ltb_irrefl nz) Hbody
              (Z.to_nat nz) 0 n0) as (n & Hrun & _); [lia|lia|done|].
  eauto.
Qed.

(** The grid after the assignment loop: the first [min ng nz] cells hold
    their own index, the others are as [calloc] left them. *)
Lemma grid_assign_loop_run (ng nz : Z) :
  0 <= ng < UINT_MOD -> 0 <= nz < UINT_MOD ->
  exists grid,
    for_u32 (Z.to_nat nz) (fun i => (i <? ng) && (i <? nz)) grid_assign_body 0
      (replicate (Z.to_nat ng) zero_cell) = Ok grid /\
    length grid = Z.to_nat ng /\
    forall i : nat,
      grid !! i =
        if decide (Z.of_nat i < Z.min ng nz)
        then Some {| zno := Z.of_nat i; blkz := Some i |}
        else if decide (Z.of_nat i < ng) then Some zero_cell else None.
Proof.
  intros Hng Hnz.
  set (I := fun (k : Z) (grid : list gzv_zone) =>
    length grid = Z.to_nat ng /\
    forall i : nat,
      grid !! i =
        if decide (Z.of_nat i < k)
        then Some {| zno := Z.of_nat i; blkz := Some i |}
        else if decide (Z.of_nat i < ng) then Some zero_cell else None).
  assert (Htrue : forall i, 0 <= i < Z.min ng nz ->
            (i <? ng) && (i <? nz) = true).
  { intros i Hi. apply andb_true_iff. split; apply Z.ltb_lt; lia. }
  assert (Hfalse : (Z.min ng nz <? ng) && (Z.min ng nz <? nz) = false).
  { apply andb_false_iff.
    destruct (Z.le_ge_cases ng nz); [left|right]; apply Z.ltb_ge; lia. }
  assert (Hbody : forall i grid, 0 <= i < Z.min ng nz -> I i grid ->
            exists grid', grid_assign_body i grid = Ok grid' /\ I (i + 1) grid').
  { intros i grid Hi [Hlen Hlk]. unfold grid_assign_body.
    destruct (lookup_lt_is_Some_2 grid (Z.to_nat i)) as [c ->]; [lia|].
    eexists. split; [reflexivity|]. split; [by rewrite length_insert|].
    intros j. simpl. destruct (decide (j = Z.to_nat i)) as [->|Hne].
    - rewrite list_lookup_insert_eq by lia. rewrite Z2Nat.id by lia.
      case_decide; [done|lia].
    - rewrite list_lookup_insert_ne by done. rewrite Hlk.
      repeat case_decide; try lia; done. }
  assert (Hinit : I 0 (replicate (Z.to_nat ng) zero_cell)).
  { split; [by rewrite length_replicate|]. intros i.
    case_decide; [lia|]. case_decide.
    - apply lookup_replicate_2. lia.
    - apply lookup_replicate_None. lia. }
  destruct (for_u32_inv I (fun i => (i <? ng) && (i <? nz)) grid_assign_body
              (Z.min ng nz) ltac:(lia) Htrue Hfalse Hbody
              (Z.to_nat nz) 0 _ ltac:(lia) ltac:(lia) Hinit)
    as (grid & Hrun & Hlen & Hlk).
  exists grid. done.
Qed.

(** ** The grid geometry *)

(** The rounding-up idiom of the source is the quotient rounded up, as long
    as its sum stays in range. *)
Lemma quot_round_up (n c : Z) :
  0 <= n -> 0 < c -> Z.quot (n + c - 1) c = ceil_div n c.
Proof.
  intros Hn Hc. unfold ceil_div.
  rewrite Z.quot_div_nonneg by lia.
  pose proof (Z.div_mod n c ltac:(lia)) as Hdm.
  pose proof (Z.mod_pos_bound n c Hc) as Hm.
  destruct (Z.eqb_spec (n mod c) 0) as [H0|H0].
  - symmetry. apply (Z.div_unique _ _ _ (c - 1)); lia.
  - symmetry. apply (Z.div_unique _ _ _ (n mod c - 1)); lia.
Qed.

Lemma ceil_div_bounds (n c : Z) :
  0 <= n -> 0 < c -> (ceil_div n c - 1) * c < n <= ceil_div n c * c.
Proof.
  intros Hn Hc. unfold ceil_div.
  pose proof (Z.div_mod n c ltac:(lia)) as Hdm.
  pose proof (Z.mod_pos_bound n c Hc) as Hm.
  destruct (Z.eqb_spec (n mod c) 0); nia.
Qed.

(** The fields [set_defaults] computes, compared with [spec_layout]. The
    populated rows agree when the 32-bit sum [nr_zones + nr_col - 1] does
    not wrap. *)
Lemma set_defaults_run (g : gzv_t) :
  0 < nr_zones g < UINT_MOD ->
  0 <= nr_col g < UINT_MOD ->
  0 <= nr_row g < UINT_MOD ->
  exists c r m,
    set_defaults g = Ok (set_max_row m (set_nr_row r (set_nr_col c g))) /\
    (c, r) = (spec_layout (nr_zones g) (nr_col g) (nr_row g)).1 /\
    0 < c < UINT_MOD /\ 0 < r < UINT_MOD /\
    m = Z.quot (u32 (nr_zones g + c - 1)) c /\
    (nr_zones g + c - 1 < UINT_MOD ->
     m = (spec_layout (nr_zones g) (nr_col g) (nr_row g)).2).
Proof.
  destruct g as [ri bs pa fd inf n ncv zs hr hc mr ngz gz]. simpl.
  intros Hn Hc Hr. unfold set_defaults, spec_layout, udiv. simpl.
  destruct ((hc =? 0) && (hr =? 0) && (n <? 100)) eqn:Hauto; simpl.
  - apply andb_true_iff in Hauto as [Hauto Hsmall].
    apply andb_true_iff in Hauto as [Hc0 Hr0].
    apply Z.eqb_eq in Hc0, Hr0. apply Z.ltb_lt in Hsmall.
    assert (Hs : 0 < Z.sqrt n) by (apply Z.sqrt_pos; lia).
    assert (Hs' : Z.sqrt n <= n) by (apply Z.sqrt_le_lin; lia).
    rewrite (u32_small (n + Z.sqrt n - 1)) by (unfold UINT_MOD; lia).
    destruct (Z.eqb_spec (Z.sqrt n) 0); [lia|]. simpl.
    destruct (Z.eqb_spec (Z.sqrt n) 0); [lia|]. simpl.
    rewrite quot_round_up by lia.
    pose proof (ceil_div_bounds n (Z.sqrt n) ltac:(lia) ltac:(lia)) as Hb.
    exists (Z.sqrt n), (ceil_div n (Z.sqrt n)),
      (Z.quot (u32 (n + Z.sqrt n - 1)) (Z.sqrt n)).
    rewrite (u32_small (n + Z.sqrt n - 1)) by (unfold UINT_MOD; lia).
    rewrite quot_round_up by lia.
    unfold UINT_MOD in *.
    repeat split; auto; try lia; try nia.
  - set (c := if hc =? 0 then 10 else hc).
    set (r := if hr =? 0 then 10 else hr).
    assert (Hc' : 0 < c < UINT_MOD).
    { subst c. unfold UINT_MOD in *. destruct (Z.eqb_spec hc 0); lia. }
    assert (Hr' : 0 < r < UINT_MOD).
    { subst r. unfold UINT_MOD in *. destruct (Z.eqb_spec hr 0); lia. }
    exists c, r, (Z.quot (u32 (n + c - 1)) c).
    split.
    { subst c r.
      destruct (Z.eqb_spec hc 0); destruct (Z.eqb_spec hr 0); cbn;
        repeat match goal with
               | |- context [?x =? 0] =>
                   destruct (Z.eqb_spec x 0); cbn in *; try lia
               end; reflexivity. }
    repeat split; auto; try lia.
    intros Hfit. rewrite u32_small by lia. apply quot_round_up; lia.
Qed.

(** ** Opening the session *)

(** Normalising [nrz] zones from index [p] on, inside the array. *)
Lemma gzv_fix_zone_values_range D mem p nrz :
  1 <= D <= INT_MAX -> (p + Z.to_nat nrz <= length mem)%nat ->
  exists mem', gzv_fix_zone_values D mem p nrz = Ok mem' /\
    length mem' = length mem /\
    forall i, mem' !! i =
      if decide (p <= i < p + Z.to_nat nrz)%nat
      then fix_zone D <$> mem !! i else mem !! i.
Proof.
  intros HD Hlen. unfold gzv_fix_zone_values.
  destruct (Z.eqb_spec D 1) as [->|Hne].
  - exists mem. split; [done|]. split; [done|]. intros i.
    case_decide; [|done]. destruct (mem !! i); simpl; [by rewrite fix_zone_one|done].
  - apply fix_zone_loop_lookup; [|done]. rewrite u64_int by done. lia.
Qed.

Lemma gzv_open_grid_run e w mem :
  config_ok (gzv w) ->
  0 < nr_zones (gzv w) < UINT_MOD ->
  nr_zones (gzv w) <= Z.of_nat (length mem) ->
  exists mem' nconv c r m grid,
    gzv_fix_zone_values (block_size (gzv w)) mem 0
      (int_of_u32 (nr_zones (gzv w))) = Ok mem' /\
    length mem' = length mem /\
    (c, r) = (spec_layout (nr_zones (gzv w)) (nr_col (gzv w)) (nr_row (gzv w))).1 /\
    (0 < c < UINT_MOD) /\ (0 < r < UINT_MOD) /\
    m = Z.quot (u32 (nr_zones (gzv w) + c - 1)) c /\
    (nr_zones (gzv w) + c - 1 < UINT_MOD ->
     m = (spec_layout (nr_zones (gzv w)) (nr_col (gzv w)) (nr_row (gzv w))).2) /\
    grid_assigned grid (u32 (c * r)) (nr_zones (gzv w)) /\
    let g1 :=
      set_nr_grid_zones (u32 (c * r))
        (set_max_row m (set_nr_row r (set_nr_col c
           (set_nr_conv_zones nconv (set_zones (Some mem') (gzv w)))))) in
    let tr := trace w ++ [EvCalloc (u32 (c * r))] in
    gzv_open_grid e w mem 0 =
      Ok (if calloc_ok e (u32 (c * r))
          then ({| gzv := set_grid_zones (Some grid) g1; trace := tr |}, 0)
          else (gzv_close {| gzv := set_grid_zones None g1; trace := tr |},
                - ENOMEM)).
Proof.
  intros (Hbs & Hhc & Hhr) Hnz Hlen.
  destruct (gzv_fix_zone_values_range (block_size (gzv w)) mem 0
              (int_of_u32 (nr_zones (gzv w))) Hbs) as (mem' & Hfix & Hlen' & _).
  { pose proof (int_of_u32_le (nr_zones (gzv w))) as Hle.
    rewrite u32_small in Hle by lia. lia. }
  destruct (count_conv_loop_run mem' (nr_zones (gzv w)) (nr_conv_zones (gzv w)))
    as (nconv & Hcount); [lia|lia|].
  destruct (set_defaults_run
              (set_nr_conv_zones nconv (set_zones (Some mem') (gzv w))))
    as (c & r & m & Hdef & Hcr & Hc & Hr & Hm & Hfit); try done.
  assert (Hng : 0 <= u32 (c * r) < UINT_MOD) by apply u32_range.
  destruct (grid_assign_loop_run (u32 (c * r)) (nr_zones (gzv w)) Hng)
    as (grid & Hgrid & Hassigned); [lia|].
  exists mem', nconv, c, r, m, grid.
  repeat (split; [done|]).
  unfold gzv_open_grid. rewrite Hfix. simpl.
  rewrite Hcount. simpl.
  rewrite Hdef. simpl.
  destruct (calloc_ok e (u32 (c * r))); [|reflexivity].
  rewrite Hgrid. simpl. reflexivity.
Qed.

(** [gzv_open] always returns. With status 0 and zones found the session is
    [opened]; with another status the device is closed again, except on the
    exit for a block size that does not divide the zone size. *)
Lemma gzv_open_run e w :
  config_ok (gzv w) ->
  exists w' ret, gzv_open e w = Ok (w', ret) /\
    (ret = 0 -> 0 < nr_zones (gzv w') -> opened e w w') /\
    (ret <> 0 ->
     dev_fd (gzv w') < 0 \/
     (ret = 1 /\ 0 <= dev_fd (gzv w') /\
      trace w' = trace w ++ [EvZbdOpen (path (gzv w))] /\
      1 < block_size (gzv w) /\
      Z.rem (zone_size (info (gzv w'))) (block_size (gzv w)) <> 0)).
Proof.
  intros Hcfg. pose proof Hcfg as (Hbs & Hhc & Hhr).
  unfold gzv_open.
  destruct (zbd_open e (path (gzv w))) as [fd inf] eqn:Hopen. simpl.
  destruct (Z.ltb_spec fd 0) as [Hfd|Hfd].
  { eexists _, _. split; [reflexivity|]. split; [lia|]. intros _. left. simpl. lia. }
  rewrite (u64_int (block_size (gzv w))) by done.
  destruct ((block_size (gzv w) >? 1)
            && negb (Z.rem (zone_size inf) (block_size (gzv w)) =? 0)) eqn:Hbad.
  { eexists _, _. split; [reflexivity|]. split; [lia|]. intros _. right. simpl.
    apply andb_true_iff in Hbad as [Hgt Hrem].
    apply negb_true_iff, Z.eqb_neq in Hrem.
    repeat split; auto; lia. }
  destruct (zbd_list_zones e fd) as [ret zs] eqn:Hlist.
  destruct (Z.eqb_spec ret 0) as [->|Hret]; simpl.
  2: { eexists _, _. split; [reflexivity|]. split; [done|]. intros _. left.
       destruct (Z.eqb_spec ret 0); [done|]. unfold gzv_close. simpl.
       destruct (Z.ltb_spec fd 0); simpl; lia. }
  destruct (Z.eqb_spec (u32 (Z.of_nat (length zs))) 0) as [Hzero|Hnz]; simpl.
  { eexists _, _. split; [reflexivity|]. split; [|done]. simpl. lia. }
  pose proof (u32_range (Z.of_nat (length zs))) as Hrange.
  pose proof (u32_of_length_le (length zs)) as Hle.
  match goal with
  | |- context [gzv_open_grid e ?w0 zs 0] =>
      destruct (gzv_open_grid_run e w0 zs)
        as (mem' & nconv & c & r & m & grid & Hfix & Hlen & Hcr & Hc & Hr
            & Hm & Hfit & Hgrid & Hrun)
  end; [done|simpl; lia|simpl; lia|].
  simpl in Hfix, Hcr, Hm, Hfit, Hgrid, Hrun. rewrite Hrun.
  destruct (calloc_ok e (u32 (c * r))).
  - eexists _, _. split; [reflexivity|]. split; [|done]. intros _ _.
    exists zs, mem', grid. simpl. rewrite Hopen, Hlist.
    injection Hcr as -> ->.
    repeat split; auto; try lia; apply Hgrid.
  - eexists _, _. split; [reflexivity|]. split; [unfold ENOMEM; lia|].
    intros _. left. unfold gzv_close. simpl.
    destruct (Z.ltb_spec fd 0); simpl; lia.
Qed.

Lemma int_of_u32_range x : - UINT_MOD <= int_of_u32 x <= INT_MAX.
Proof.
  unfold int_of_u32. cbv zeta. pose proof (u32_range x).
  destruct (Z.leb_spec (u32 x) INT_MAX); unfold UINT_MOD, INT_MAX in *; lia.
Qed.

(** [main] hands [gzv_open] a configuration in range. *)
Lemma main_setup_config_ok o argv w :
  main_setup true o argv = inr w -> config_ok (gzv w).
Proof.
  unfold main_setup. simpl.
  destruct (Z.ltb_spec (refresh_interval (parse_options o gzv_init)) 0); [done|].
  destruct (Z.leb_spec (block_size (parse_options o gzv_init)) 0) as [|Hbs]; [done|].
  destruct (Z.ltb_spec (Z.of_nat (length argv)) 2); [done|].
  intros [= <-].
  assert (Hcfg : config_ok (parse_options o gzv_init)).
  { split; [|split].
    - split; [lia|]. rewrite block_size_parse.
      destruct (opt_block o); [apply int_of_u32_range|unfold INT_MAX; lia].
    - destruct o as [vb [i|] [c|] [r|] [b|]]; simpl;
        try apply u32_range; unfold UINT_MOD; lia.
    - destruct o as [vb [i|] [c|] [r|] [b|]]; simpl;
        try apply u32_range; unfold UINT_MOD; lia. }
  destruct (opt_verbose o);
    destruct (refresh_interval _ =? 0); exact Hcfg.
Qed.

(** C3, as stated, fails: a device of 200 zones opened without hints gets a
    grid of 10 columns and 10 rows, fewer cells than zones. *)
Lemma main_grid_smaller_than_zones :
  exists w,
    main (sim_env (seq_dev 200 8) 8) true no_options argv_dev = Ok (w, 0) /\
    nr_zones (gzv w) = 200 /\
    nr_col (gzv w) = 10 /\
    nr_row (gzv w) = 10 /\
    nr_col (gzv w) * nr_row (gzv w) < nr_zones (gzv w).
Proof.
  eexists. split; [vm_compute; reflexivity|]. simpl. repeat split; lia.
Qed.

(** C3, amended. After a successful open that found zones the grid has at
    least one column and one row; it has at least as many cells as there
    are zones when both hints are absent and there are fewer than 100
    zones. *)
Theorem gzv_open_grid_geometry (e : env) (o : options) (argv : list string)
    (w : world) :
  main_setup true o argv = inr w ->
  exists w' ret, gzv_open e w = Ok (w', ret) /\
    (ret = 0 -> 0 < nr_zones (gzv w') ->
     0 < nr_col (gzv w') /\
     0 < nr_row (gzv w') /\
     (nr_col (gzv w) = 0 -> nr_row (gzv w) = 0 -> nr_zones (gzv w') < 100 ->
      nr_zones (gzv w') <= nr_col (gzv w') * nr_row (gzv w'))).
Proof.
  intros Hsetup. apply main_setup_config_ok in Hsetup.
  destruct (gzv_open_run e w Hsetup) as (w' & ret & Hrun & Hok & _).
  exists w', ret. split; [done|]. intros Hret Hnz.
  destruct (Hok Hret Hnz)
    as (zs & mem' & grid & _ & _ & _ & _ & _ & _ & _ & _ & Hcr & Hc & Hr & _).
  split; [lia|]. split; [lia|]. intros Hhc Hhr Hsmall.
  rewrite Hhc, Hhr in Hcr. unfold spec_layout in Hcr. simpl in Hcr.
  destruct (Z.ltb_spec (nr_zones (gzv w')) 100); [|lia]. simpl in Hcr.
  injection Hcr as -> ->.
  assert (Hs : 0 < Z.sqrt (nr_zones (gzv w'))) by (apply Z.sqrt_pos; lia).
  pose proof (ceil_div_bounds (nr_zones (gzv w')) (Z.sqrt (nr_zones (gzv w')))
                ltac:(lia) Hs).
  lia.
Qed.

Lemma gzv_open_grid_geometry_witness :
  exists w',
    gzv_open (sim_env (seq_dev 37 8) 8) plain_setup = Ok (w', 0) /\
    nr_zones (gzv w') = 37 /\
    0 < nr_col (gzv w') /\
    0 < nr_row (gzv w') /\
    nr_zones (gzv w') <= nr_col (gzv w') * nr_row (gzv w').
Proof.
  destruct (gzv_open_grid_geometry (sim_env (seq_dev 37 8) 8) no_options
              argv_dev plain_setup eq_refl) as (w' & ret & Hrun & Hgeo).
  pose proof Hrun as Heval. vm_compute in Heval.
  injection Heval as Hw Hret. subst w' ret.
  eexists. split; [exact Hrun|]. split; [reflexivity|].
  destruct (Hgeo eq_refl) as (Hcol & Hrow & Hcells); [simpl; lia|].
  split; [exact Hcol|]. split; [exact Hrow|].
  apply Hcells; [reflexivity|reflexivity|simpl; lia].
Defined.

(** The layout inside the 32-bit range. With fewer than 100 zones and no
    hint the grid has
    [floor (sqrt zone_count)] columns and the zone count divided by the
    columns, rounded up, rows: 6 columns and 7 rows for 37 zones. With a hint
    given or with 100 zones or more, a hint that is absent becomes 10. The
    populated rows are the zone count divided by the columns, rounded up,
    where the 32-bit sum [nr_zones + nr_col - 1] of the source does not
    wrap. *)
Theorem gzv_open_layout (e : env) (o : options) (argv : list string)
    (w : world) :
  main_setup true o argv = inr w ->
  exists w' ret, gzv_open e w = Ok (w', ret) /\
    (ret = 0 -> 0 < nr_zones (gzv w') ->
     let n := nr_zones (gzv w') in
     let hc := nr_col (gzv w) in
     let hr := nr_row (gzv w) in
     (hc = 0 -> hr = 0 -> n < 100 ->
      nr_col (gzv w') = Z.sqrt n /\
      (nr_col (gzv w') * nr_col (gzv w') <= n
       < (nr_col (gzv w') + 1) * (nr_col (gzv w') + 1)) /\
      nr_row (gzv w') = ceil_div n (nr_col (gzv w'))) /\
     (hc = 0 -> hr = 0 -> n = 37 ->
      nr_col (gzv w') = 6 /\ nr_row (gzv w') = 7) /\
     (hc <> 0 \/ hr <> 0 \/ 100 <= n ->
      nr_col (gzv w') = (if hc =? 0 then 10 else hc) /\
      nr_row (gzv w') = (if hr =? 0 then 10 else hr)) /\
     (n + nr_col (gzv w') - 1 < UINT_MOD ->
      max_row (gzv w') = ceil_div n (nr_col (gzv w')))).
Proof.
  intros Hsetup. apply main_setup_config_ok in Hsetup.
  destruct (gzv_open_run e w Hsetup) as (w' & ret & Hrun & Hok & _).
  exists w', ret. split; [done|]. intros Hret Hnz.
  destruct (Hok Hret Hnz)
    as (zs & mem' & grid & _ & _ & _ & _ & _ & _ & _ & _ & Hcr & Hc & Hr & _
        & Hfit & _).
  cbv zeta. unfold spec_layout in Hcr, Hfit. simpl in Hcr, Hfit.
  assert (Hauto : nr_col (gzv w) = 0 -> nr_row (gzv w) = 0 ->
            nr_zones (gzv w') < 100 ->
            nr_col (gzv w') = Z.sqrt (nr_zones (gzv w')) /\
            nr_row (gzv w') =
              ceil_div (nr_zones (gzv w')) (Z.sqrt (nr_zones (gzv w')))).
  { intros Hhc Hhr Hsmall. rewrite Hhc, Hhr in Hcr. simpl in Hcr.
    destruct (Z.ltb_spec (nr_zones (gzv w')) 100); [|lia]. simpl in Hcr.
    by injection Hcr as -> ->. }
  assert (Hgiven : nr_col (gzv w) <> 0 \/ nr_row (gzv w) <> 0 \/
                     100 <= nr_zones (gzv w') ->
            (nr_col (gzv w) =? 0) && (nr_row (gzv w) =? 0)
              && (nr_zones (gzv w') <? 100) = false).
  { intros Hcase. apply not_true_is_false. intros Htrue.
    apply andb_true_iff in Htrue as [Htrue Hsmall].
    apply andb_true_iff in Htrue as [Hc0 Hr0].
    apply Z.eqb_eq in Hc0, Hr0. apply Z.ltb_lt in Hsmall. lia. }
  split; [|split; [|split]].
  - intros Hhc Hhr Hsmall. destruct (Hauto Hhc Hhr Hsmall) as [Hcol Hrow].
    rewrite Hrow, Hcol. split; [done|]. split; [|done].
    apply Z.sqrt_spec. lia.
  - intros Hhc Hhr H37. destruct (Hauto Hhc Hhr ltac:(lia)) as [Hcol Hrow].
    rewrite Hrow, Hcol, H37. split; reflexivity.
  - intros Hcase. rewrite (Hgiven Hcase) in Hcr. simpl in Hcr.
    by injection Hcr as -> ->.
  - intros Hnowrap. rewrite (Hfit Hnowrap).
    destruct ((nr_col (gzv w) =? 0) && (nr_row (gzv w) =? 0)
              && (nr_zones (gzv w') <? 100)); simpl in Hcr;
      by injection Hcr as -> _.
Qed.

Lemma gzv_open_layout_witness :
  exists w',
    gzv_open (sim_env (seq_dev 37 8) 8) plain_setup = Ok (w', 0) /\
    nr_zones (gzv w') = 37 /\
    nr_col (gzv w') = Z.sqrt 37 /\
    nr_col (gzv w') = 6 /\
    nr_row (gzv w') = 7 /\
    max_row (gzv w') = ceil_div 37 6.
Proof.
  destruct (gzv_open_layout (sim_env (seq_dev 37 8) 8) no_options argv_dev
              plain_setup eq_refl) as (w' & ret & Hrun & Hlayout).
  pose proof Hrun as Heval. vm_compute in Heval.
  injection Heval as Hw Hret. subst w' ret.
  eexists. split; [exact Hrun|]. split; [reflexivity|].
  destruct (Hlayout eq_refl) as (Hauto & H37 & _ & Hmax); [simpl; lia|].
  destruct Hauto as (Hsqrt & _ & _); [reflexivity|reflexivity|simpl; lia|].
  destruct H37 as (Hcol & Hrow); [reflexivity|reflexivity|reflexivity|].
  split; [exact Hsqrt|]. split; [exact Hcol|]. split; [exact Hrow|].
  apply Hmax. vm_compute. reflexivity.
Defined.

(** The grid of a device of 37 zones opened without hints. *)
Example gzv_open_37_zones :
  exists w',
    gzv_open (sim_env (seq_dev 37 8) 8) plain_setup = Ok (w', 0) /\
    nr_zones (gzv w') = 37 /\ nr_col (gzv w') = 6 /\ nr_row (gzv w') = 7 /\
    max_row (gzv w') = 7 /\ nr_grid_zones (gzv w') = 42.
Proof. eexists. split; [vm_compute; reflexivity|]. repeat split. Qed.

(** Beyond the range: with [UINT_MAX] zones the sum wraps and the populated
    rows come out as 0. *)
Example set_defaults_wraps :
  max_row <$> (match set_defaults (set_nr_zones 4294967295 gzv_init) with
               | Ok g => Some g | _ => None end) = Some 0 /\
  ceil_div 4294967295 10 = 429496730.
Proof. split; vm_compute; reflexivity. Qed.

(** C4 at its failing input: the options [--width -1 --height -1] on a
    device of four zones. [main] accepts them, [gzv_open] succeeds with
    4294967295 columns, the 32-bit sum [nr_zones + nr_col - 1] wraps to 2 and
    [max_row] comes out as 0, where the zone count divided by the columns,
    rounded up, is 1. *)
Theorem gzv_open_max_row_wraps :
  exists w,
    main (sim_env dev4 8) true (options_with 1 (-1) (-1)) argv_dev = Ok (w, 0) /\
    nr_zones (gzv w) = 4 /\
    nr_col (gzv w) = 4294967295 /\
    u32 (nr_zones (gzv w) + nr_col (gzv w) - 1) = 2 /\
    max_row (gzv w) = 0 /\
    ceil_div (nr_zones (gzv w)) (nr_col (gzv w)) = 1.
Proof.
  eexists. split; [vm_compute; reflexivity|].
  repeat split; vm_compute; reflexivity.
Qed.

(** C10. The assignment loop of [gzv_open] ends without an access outside
    the grid array, which has [nr_grid_zones] cells, the 32-bit product of
    columns and rows. Cell [i] gets [zno = i] and the reference to zone [i]
    exactly for [i] below the smaller of [nr_grid_zones] and the zone count;
    every other cell is as [calloc] left it. *)
Theorem gzv_open_grid_cells (e : env) (o : options) (argv : list string)
    (w : world) :
  main_setup true o argv = inr w ->
  exists w' ret, gzv_open e w = Ok (w', ret) /\
    (ret = 0 -> 0 < nr_zones (gzv w') ->
     exists grid,
       grid_zones (gzv w') = Some grid /\
       nr_grid_zones (gzv w') = u32 (nr_col (gzv w') * nr_row (gzv w')) /\
       nr_grid_zones (gzv w') <= nr_col (gzv w') * nr_row (gzv w') /\
       length grid = Z.to_nat (nr_grid_zones (gzv w')) /\
       forall i : nat,
         (Z.of_nat i < Z.min (nr_grid_zones (gzv w')) (nr_zones (gzv w')) ->
          grid !! i = Some {| zno := Z.of_nat i; blkz := Some i |}) /\
         (Z.min (nr_grid_zones (gzv w')) (nr_zones (gzv w')) <= Z.of_nat i
            < nr_grid_zones (gzv w') ->
          grid !! i = Some zero_cell) /\
         (nr_grid_zones (gzv w') <= Z.of_nat i -> grid !! i = None)).
Proof.
  intros Hsetup. apply main_setup_config_ok in Hsetup.
  destruct (gzv_open_run e w Hsetup) as (w' & ret & Hrun & Hok & _).
  exists w', ret. split; [done|]. intros Hret Hnz.
  destruct (Hok Hret Hnz)
    as (zs & mem' & grid & _ & _ & _ & _ & _ & _ & _ & _ & _ & Hc & Hr & _ & _
        & Hng & Hgrid & Hlen & Hcells).
  exists grid. split; [done|]. split; [done|]. split.
  { rewrite Hng. unfold u32, UINT_MOD. apply Z.mod_le; lia. }
  split; [done|]. intros i. rewrite Hcells.
  repeat split; intros Hi; repeat case_decide; try lia; done.
Qed.

Lemma gzv_open_grid_cells_witness :
  exists w' grid,
    gzv_open (sim_env dev4 8) plain_setup = Ok (w', 0) /\
    nr_zones (gzv w') = 4 /\
    nr_grid_zones (gzv w') = 4 /\
    grid_zones (gzv w') = Some grid /\
    length grid = 4%nat /\
    grid !! 3%nat = Some {| zno := 3; blkz := Some 3%nat |} /\
    grid !! 4%nat = None.
Proof.
  destruct (gzv_open_grid_cells (sim_env dev4 8) no_options argv_dev
              plain_setup eq_refl) as (w' & ret & Hrun & Hcells).
  pose proof Hrun as Heval. vm_compute in Heval.
  injection Heval as Hw Hret. subst w' ret.
  destruct (Hcells eq_refl) as (grid & Hgrid & _ & _ & Hlen & Hlk); [simpl; lia|].
  eexists _, grid. split; [exact Hrun|]. split; [reflexivity|].
  split; [reflexivity|]. split; [exact Hgrid|]. split; [exact Hlen|].
  destruct (Hlk 3%nat) as (Hin & _ & _). destruct (Hlk 4%nat) as (_ & _ & Hout).
  split; [apply Hin; simpl; lia|apply Hout; simpl; lia].
Defined.

(** Two runs of the loop: a grid of 4 cells for 10 zones, and a grid of 6
    cells for 2 zones. *)
Example gzv_open_small_grid :
  exists w',
    gzv_open (sim_env (seq_dev 10 8) 8) (session 1 2 2) = Ok (w', 0) /\
    grid_zones (gzv w') =
      Some [ {| zno := 0; blkz := Some 0%nat |}; {| zno := 1; blkz := Some 1%nat |};
             {| zno := 2; blkz := Some 2%nat |}; {| zno := 3; blkz := Some 3%nat |} ].
Proof. eexists. split; [vm_compute; reflexivity|]. reflexivity. Qed.

Example gzv_open_large_grid :
  exists w',
    gzv_open (sim_env dev2 4) (session 1 3 2) = Ok (w', 0) /\
    grid_zones (gzv w') =
      Some [ {| zno := 0; blkz := Some 0%nat |}; {| zno := 1; blkz := Some 1%nat |};
             zero_cell; zero_cell; zero_cell; zero_cell ].
Proof. eexists. split; [vm_compute; reflexivity|]. reflexivity. Qed.

(** ** Release on the exits of [gzv_open] *)

(** The exits through the label [out] with a status other than 0, and the
    exit after a failed [zbd_open], leave no open descriptor. *)
Lemma gzv_open_out_paths_release e w w' ret :
  config_ok (gzv w) ->
  gzv_open e w = Ok (w', ret) -> ret <> 0 ->
  ~ (1 < block_size (gzv w) /\
     Z.rem (zone_size (info (gzv w'))) (block_size (gzv w)) <> 0) ->
  dev_fd (gzv w') < 0.
Proof.
  intros Hcfg Hrun Hret Hgood.
  destruct (gzv_open_run e w Hcfg) as (w1 & r1 & Hrun1 & _ & Hfail).
  rewrite Hrun in Hrun1. injection Hrun1 as <- <-.
  destruct (Hfail Hret) as [Hclosed|(_ & _ & _ & Hbs & Hrem)]; [done|].
  exfalso. apply Hgood. done.
Qed.

(** C8 at its failing input: a block size of 3 on a device with zones of 10
    bytes. [gzv_open] returns 1 from the block-size check, [main] exits with
    status 1, the descriptor 3 is still open and [zbd_close] was not
    called. *)
Theorem main_invalid_block_size_keeps_device :
  exists w,
    main (sim_env dev10 10) true
      {| opt_verbose := false; opt_interval := None; opt_width := None;
         opt_height := None; opt_block := Some 3 |} argv_dev = Ok (w, 1) /\
    dev_fd (gzv w) = 3 /\
    trace w = [EvZbdOpen (Some "/dev/nullb0"%string)] /\
    gzv_close w <> w.
Proof.
  eexists. split; [vm_compute; reflexivity|].
  repeat split. discriminate.
Qed.

(** ** Re-querying a window of zones *)

Lemma store_zones_lookup rep : forall mem p,
  (p + length rep <= length mem)%nat ->
  exists mem', store_zones mem p rep = Ok mem' /\
    length mem' = length mem /\
    forall i, mem' !! i =
      if decide (p <= i < p + length rep)%nat then rep !! (i - p)%nat
      else mem !! i.
Proof.
  induction rep as [|z rep IH]; intros mem p Hlen; simpl in *.
  - exists mem. split; [done|]. split; [done|]. intros i. case_decide; [lia|done].
  - destruct (lookup_lt_is_Some_2 mem p) as [z0 ->]; [lia|].
    destruct (IH (<[p := z]> mem) (S p)) as (mem' & -> & Hl & Hlk).
    { rewrite length_insert. lia. }
    exists mem'. split; [done|]. rewrite Hl, length_insert. split; [done|].
    intros i. rewrite Hlk. destruct (decide (i = p)) as [->|Hne].
    + rewrite list_lookup_insert_eq by lia. rewrite Nat.sub_diag.
      repeat case_decide; try lia; done.
    + rewrite list_lookup_insert_ne by done.
      repeat case_decide; try lia; try done.
      replace (i - p)%nat with (S (i - S p)) by lia. done.
Qed.

(** The window of a call whose 32-bit sum [zno_start + nr_zones] does not
    wrap. A call with [zno_start] at or beyond the zone count does nothing
    and returns 0. Another call hands the collaborator the stored start of
    zone [zno_start] as the offset, the clamped count times the zone size as
    the length and the clamped count as the capacity; when the collaborator
    keeps to the capacity, no zone outside the window changes and the zone
    count stays. *)
Lemma gzv_report_zones_window e w zno_start count :
  zones_ok (gzv w) ->
  1 <= block_size (gzv w) <= INT_MAX ->
  0 <= zno_start < UINT_MOD -> 0 <= count < UINT_MOD ->
  zno_start + count < UINT_MOD ->
  (forall fd ofst nbytes nr,
     0 <= nr -> Z.of_nat (length (zbd_report_zones e fd ofst nbytes nr).2) <= nr) ->
  (nr_zones (gzv w) <= zno_start ->
   gzv_report_zones e w zno_start count = Ok (w, 0)) /\
  (zno_start < nr_zones (gzv w) ->
   let nrz := Z.min count (nr_zones (gzv w) - zno_start) in
   exists w' ret mem mem' z0,
     gzv_report_zones e w zno_start count = Ok (w', ret) /\
     zones (gzv w) = Some mem /\
     mem !! Z.to_nat zno_start = Some z0 /\
     zones (gzv w') = Some mem' /\
     length mem' = length mem /\
     nr_zones (gzv w') = nr_zones (gzv w) /\
     (forall i : nat,
        Z.of_nat i < zno_start \/ zno_start + nrz <= Z.of_nat i ->
        mem' !! i = mem !! i) /\
     trace w' = trace w ++
       [EvZbdReportZones (dev_fd (gzv w)) (zbd_zone_start z0)
          (u64 (nrz * zone_size (info (gzv w)))) nrz]).
Proof.
  intros (mem & Hmem & Hlen & Hnz) Hbs Hstart Hcount Hsum Hcap.
  unfold gzv_report_zones. rewrite (u32_small zno_start) by done.
  rewrite (u32_small count) by done.
  rewrite (u32_small (zno_start + count)) by lia.
  split.
  - intros Hge. destruct (Z.geb_spec zno_start (nr_zones (gzv w))); [done|lia].
  - intros Hlt. cbv zeta.
    destruct (Z.geb_spec zno_start (nr_zones (gzv w))); [lia|].
    set (nrz := if zno_start + count >? nr_zones (gzv w)
                then u32 (nr_zones (gzv w) - zno_start) else count).
    assert (Hnrz : nrz = Z.min count (nr_zones (gzv w) - zno_start)).
    { subst nrz. destruct (Z.gtb_spec (zno_start + count) (nr_zones (gzv w))).
      - rewrite u32_small by lia. lia.
      - lia. }
    rewrite Hmem.
    destruct (lookup_lt_is_Some_2 mem (Z.to_nat zno_start)) as [z0 Hz0]; [lia|].
    rewrite Hz0.
    specialize (Hcap (dev_fd (gzv w)) (zbd_zone_start z0)
                  (u64 (nrz * zone_size (info (gzv w)))) nrz ltac:(lia)).
    destruct (zbd_report_zones e (dev_fd (gzv w)) (zbd_zone_start z0)
                (u64 (nrz * zone_size (info (gzv w)))) nrz) as [ret rep].
    simpl in Hcap.
    destruct (store_zones_lookup rep mem (Z.to_nat zno_start))
      as (mem1 & Hstore & Hlen1 & Hlk1); [lia|].
    rewrite Hstore. simpl.
    destruct (Z.eqb_spec ret 0) as [->|Hret]; simpl.
    + assert (Hu : u32 (Z.of_nat (length rep)) = Z.of_nat (length rep))
        by (apply u32_small; lia).
      pose proof (int_of_u32_le (Z.of_nat (length rep))) as Hle.
      rewrite Hu in Hle.
      destruct (gzv_fix_zone_values_range (block_size (gzv w)) mem1
                  (Z.to_nat zno_start)
                  (int_of_u32 (u32 (Z.of_nat (length rep)))) Hbs)
        as (mem2 & Hfix & Hlen2 & Hlk2).
      { rewrite Hu. lia. }
      rewrite Hfix. simpl.
      eexists _, 0, mem, mem2, z0. split; [reflexivity|]. simpl.
      rewrite <- Hnrz.
      repeat split; auto; try congruence.
      intros i Hi. rewrite Hlk2, Hlk1. rewrite Hu in *.
      repeat case_decide; try lia; done.
    + eexists _, ret, mem, mem1, z0. split; [reflexivity|]. simpl.
      rewrite <- Hnrz.
      repeat split; auto.
      intros i Hi. rewrite Hlk1. case_decide; [lia|done].
Qed.

(** After [gzv_open] the stored array is the listed one, normalised, for a
    zone count in the range of [int]. *)
Lemma opened_zones e w w' zs :
  config_ok (gzv w) -> opened e w w' ->
  zbd_list_zones e (dev_fd (gzv w')) = (0, zs) ->
  Z.of_nat (length zs) <= INT_MAX ->
  zones (gzv w') = Some (fix_zone (block_size (gzv w)) <$> zs) /\
  nr_zones (gzv w') = Z.of_nat (length zs).
Proof.
  intros (Hbs & _) (zs' & mem' & grid & _ & _ & Hlist & _ & Hnz & Hfix & Hz & _)
    Hlist' Hlen.
  rewrite Hlist in Hlist'. injection Hlist' as ->.
  assert (Hu : u32 (Z.of_nat (length zs)) = Z.of_nat (length zs)).
  { apply u32_small. unfold INT_MAX, UINT_MOD in *. lia. }
  rewrite Hnz, Hu in Hfix. rewrite int_of_u32_small in Hfix by lia.
  rewrite gzv_fix_zone_values_all in Hfix by done.
  injection Hfix as <-. rewrite Hnz, Hu. done.
Qed.

(** The offset [gzv_report_zones] hands the collaborator after [gzv_open]:
    the byte start of the zone divided by the block size. *)
Lemma gzv_report_zones_offset e w w' zs zno_start count :
  config_ok (gzv w) -> opened e w w' ->
  zbd_list_zones e (dev_fd (gzv w')) = (0, zs) ->
  Z.of_nat (length zs) <= INT_MAX ->
  0 <= zno_start < nr_zones (gzv w') ->
  0 <= count < UINT_MOD -> zno_start + count < UINT_MOD ->
  (forall fd ofst nbytes nr,
     0 <= nr -> Z.of_nat (length (zbd_report_zones e fd ofst nbytes nr).2) <= nr) ->
  let nrz := Z.min count (nr_zones (gzv w') - zno_start) in
  exists zraw w'' ret,
    zs !! Z.to_nat zno_start = Some zraw /\
    gzv_report_zones e w' zno_start count = Ok (w'', ret) /\
    trace w'' = trace w' ++
      [EvZbdReportZones (dev_fd (gzv w'))
         (Z.quot (start zraw) (block_size (gzv w)))
         (u64 (nrz * zone_size (info (gzv w')))) nrz].
Proof.
  intros Hcfg Hopened Hlist Hlen Hstart Hcount Hsum Hcap nrz.
  destruct (opened_zones e w w' zs Hcfg Hopened Hlist Hlen) as [Hzones Hnz].
  pose proof Hcfg as (Hbs & _).
  assert (Hbs' : block_size (gzv w') = block_size (gzv w)).
  { by destruct Hopened as (? & ? & ? & _ & _ & _ & ? & _). }
  destruct (gzv_report_zones_window e w' zno_start count) as [_ Hwin]; try done.
  { eexists. split; [exact Hzones|]. rewrite length_fmap.
    unfold INT_MAX, UINT_MOD in *. lia. }
  { by rewrite Hbs'. }
  { unfold UINT_MOD in *. lia. }
  destruct Hwin as (w'' & ret & mem & mem2 & z0 & Hrun & Hmem & Hz0 & _ & _ & _
                    & _ & Htrace); [lia|].
  rewrite Hzones in Hmem. injection Hmem as <-.
  rewrite list_lookup_fmap in Hz0.
  destruct (zs !! Z.to_nat zno_start) as [zraw|] eqn:Hraw; [|done].
  injection Hz0 as <-.
  exists zraw, w'', ret. split; [done|]. split; [done|].
  rewrite Htrace. unfold zbd_zone_start, fix_zone. simpl.
  by rewrite u64_int.
Qed.

(** C2 at its failing input: block size 2 on a device with two zones of 4
    bytes. Zone 1 starts at byte 4 and is stored with start 2, and the
    re-query of zone 1 asks the device for the 4 bytes at offset 2. The
    device answers with zone 0, whose values then stand in entry 1. *)
Theorem gzv_report_zones_offset_in_blocks :
  exists w w',
    gzv_open (sim_env dev2 4) (session 2 0 0) = Ok (w, 0) /\
    start <$> dev2 !! 1%nat = Some 4 /\
    gzv_report_zones (sim_env dev2 4) w 1 1 = Ok (w', 0) /\
    trace w' = trace w ++ [EvZbdReportZones 3 2 4 1] /\
    zones (gzv w') = Some [fix_zone 2 (seq_zone 4 0 0); fix_zone 2 (seq_zone 4 0 0)].
Proof.
  eexists _, _. split; [vm_compute; reflexivity|]. split; [reflexivity|].
  split; [vm_compute; reflexivity|]. split; reflexivity.
Qed.

(** C1 at its failing input: the window of 4294967295 zones from zone 2 of a
    device with four zones of 8 bytes. The 32-bit sum [zno_start + nrz]
    wraps to 1, the window is not clamped, and the collaborator is told that
    the two entries left in the array are 4294967295. With bytes as the unit
    the device happens to report two zones only; with a block size of 2 it
    reports three from the offset it is given and the third is stored past
    the end of the zone array. *)
Theorem gzv_report_zones_window_wraps :
  u32 (2 + 4294967295) = 1 /\
  Z.min 4294967295 (4 - 2) = 2 /\
  (exists w w',
     gzv_open (sim_env dev4 8) (session 1 0 0) = Ok (w, 0) /\
     nr_zones (gzv w) = 4 /\
     gzv_report_zones (sim_env dev4 8) w 2 4294967295 = Ok (w', 0) /\
     trace w' = trace w ++
       [EvZbdReportZones 3 16 (u64 (4294967295 * 8)) 4294967295]) /\
  (exists w,
     gzv_open (sim_env dev4 8) (session 2 0 0) = Ok (w, 0) /\
     nr_zones (gzv w) = 4 /\
     gzv_report_zones (sim_env dev4 8) w 2 4294967295 = Fault).
Proof.
  split; [reflexivity|]. split; [reflexivity|]. split.
  - eexists _, _. split; [vm_compute; reflexivity|]. split; [reflexivity|].
    split; [vm_compute; reflexivity|]. reflexivity.
  - eexists. split; [vm_compute; reflexivity|]. split; [reflexivity|].
    vm_compute. reflexivity.
Qed.

(** * Further properties *)

(** ** Normalisation: bounds, loss and order *)

Lemma fix_zone_loop_out_of_range D n : forall p mem,
  (0 < n)%nat -> (length mem < p + n)%nat ->
  fix_zone_loop D n p mem = Fault.
Proof.
  induction n as [|n IH]; intros p mem Hn Hlen; [lia|]. simpl.
  destruct (mem !! p) as [z|] eqn:Hz; [|done].
  destruct (u64 D =? 0); [done|].
  apply lookup_lt_Some in Hz.
  apply IH; [lia|rewrite length_insert; lia].
Qed.

(** X1. [gzv_fix_zone_values] accesses the [nrz] entries from [blkz] on and
    no other: with a block size other than 1 it completes exactly when these
    entries lie inside the array (a count of 0 or less accesses nothing),
    keeps the length of the array and every entry outside the range, and
    faults otherwise. With block size 1 it accesses nothing. *)
Theorem gzv_fix_zone_values_bounds (D : Z) (mem : list blk_zone) (p : nat)
    (nrz : Z) :
  1 <= D <= INT_MAX ->
  (D = 1 -> gzv_fix_zone_values D mem p nrz = Ok mem) /\
  (D <> 1 -> (nrz <= 0 \/ Z.of_nat p + nrz <= Z.of_nat (length mem)) ->
   exists mem', gzv_fix_zone_values D mem p nrz = Ok mem' /\
     length mem' = length mem /\
     forall i : nat,
       (Z.of_nat i < Z.of_nat p \/ Z.of_nat p + nrz <= Z.of_nat i ->
        mem' !! i = mem !! i) /\
       (Z.of_nat p <= Z.of_nat i < Z.of_nat p + nrz ->
        mem' !! i = fix_zone D <$> mem !! i)) /\
  (D <> 1 -> 0 < nrz -> Z.of_nat (length mem) < Z.of_nat p + nrz ->
   gzv_fix_zone_values D mem p nrz = Fault).
Proof.
  intros HD. split; [|split].
  - intros ->. reflexivity.
  - intros Hne Hin. unfold gzv_fix_zone_values.
    destruct (Z.eqb_spec D 1); [done|].
    destruct (Z.le_gt_cases nrz 0) as [Hle|Hgt].
    + replace (Z.to_nat nrz) with 0%nat by lia. simpl.
      exists mem. split; [done|]. split; [done|]. intros i. split; [done|lia].
    + destruct (fix_zone_loop_lookup D (Z.to_nat nrz) p mem)
        as (mem' & Hrun & Hlen & Hlk); [rewrite u64_int by done; lia|lia|].
      exists mem'. split; [done|]. split; [done|]. intros i. rewrite Hlk.
      split; intros Hi; case_decide; try lia; done.
  - intros Hne Hpos Hout. unfold gzv_fix_zone_values.
    destruct (Z.eqb_spec D 1); [done|].
    apply fix_zone_loop_out_of_range; lia.
Qed.

Lemma gzv_fix_zone_values_bounds_witness :
  gzv_fix_zone_values 1 dev2 5 7 = Ok dev2 /\
  (exists mem', gzv_fix_zone_values 2 dev4 1 2 = Ok mem' /\
     length mem' = 4%nat /\
     mem' !! 0%nat = dev4 !! 0%nat /\
     mem' !! 3%nat = dev4 !! 3%nat /\
     mem' !! 2%nat = fix_zone 2 <$> dev4 !! 2%nat) /\
  gzv_fix_zone_values 2 dev4 3 2 = Fault.
Proof.
  split; [|split].
  - destruct (gzv_fix_zone_values_bounds 1 dev2 5 7) as (Hone & _);
      [unfold INT_MAX; lia|].
    apply Hone. reflexivity.
  - destruct (gzv_fix_zone_values_bounds 2 dev4 1 2) as (_ & Hin & _);
      [unfold INT_MAX; lia|].
    destruct Hin as (mem' & Hrun & Hlen & Hlk); [lia|simpl; lia|].
    exists mem'. split; [exact Hrun|]. split; [exact Hlen|].
    destruct (Hlk 0%nat) as (H0 & _). destruct (Hlk 3%nat) as (H3 & _).
    destruct (Hlk 2%nat) as (_ & H2).
    split; [apply H0; simpl; lia|]. split; [apply H3; simpl; lia|].
    apply H2. simpl. lia.
  - destruct (gzv_fix_zone_values_bounds 2 dev4 3 2) as (_ & _ & Hout);
      [unfold INT_MAX; lia|].
    apply Hout; [lia|lia|simpl; lia].
Defined.

Lemma quot_loss (x D : Z) : 0 <= x -> 0 < D -> 0 <= x - D * Z.quot x D < D.
Proof.
  intros Hx HD. rewrite Z.quot_div_nonneg by lia.
  pose proof (Z.div_mod x D ltac:(lia)). pose proof (Z.mod_pos_bound x D HD).
  lia.
Qed.

Lemma quot_exact (x D : Z) : 0 < D -> Z.rem x D = 0 -> D * Z.quot x D = x.
Proof.
  intros HD Hrem. pose proof (Z.quot_rem x D ltac:(lia)). lia.
Qed.

(** X2. Normalisation loses less than one unit: for a byte value that is
    not negative, the stored value times [D] is at most the byte value and
    falls short of it by less than [D]; a byte value that [D] divides is
    recovered exactly. This holds for the start and the length of every zone
    and for the write pointer of every zone that is not conventional. *)
Theorem gzv_fix_zone_values_loss (D : Z) (mem : list blk_zone) :
  1 <= D <= INT_MAX ->
  exists mem',
    gzv_fix_zone_values D mem 0 (Z.of_nat (length mem)) = Ok mem' /\
    forall i z, mem !! i = Some z ->
      exists z', mem' !! i = Some z' /\
        (0 <= start z -> 0 <= start z - D * start z' < D) /\
        (0 <= len z -> 0 <= len z - D * len z' < D) /\
        (zbd_zone_conventional z = false -> 0 <= wp z ->
         0 <= wp z - D * wp z' < D) /\
        (Z.rem (start z) D = 0 -> D * start z' = start z) /\
        (Z.rem (len z) D = 0 -> D * len z' = len z) /\
        (zbd_zone_conventional z = false -> Z.rem (wp z) D = 0 ->
         D * wp z' = wp z).
Proof.
  intros HD. exists (fix_zone D <$> mem).
  split; [by apply gzv_fix_zone_values_all|].
  intros i z Hz. exists (fix_zone D z). rewrite list_lookup_fmap, Hz.
  split; [done|]. unfold fix_zone. simpl. rewrite u64_int by done.
  split; [intros; apply quot_loss; lia|].
  split; [intros; apply quot_loss; lia|].
  split; [intros -> Hwp; apply quot_loss; lia|].
  split; [intros; apply quot_exact; [lia|done]|].
  split; [intros; apply quot_exact; [lia|done]|].
  intros -> Hrem. apply quot_exact; [lia|done].
Qed.

Lemma gzv_fix_zone_values_loss_witness :
  exists mem',
    gzv_fix_zone_values 512 [seq_zone 4096 1 1000] 0 1 = Ok mem' /\
    exists z', mem' !! 0%nat = Some z' /\
      0 <= 5096 - 512 * wp z' < 512 /\
      512 * start z' = 4096.
Proof.
  destruct (gzv_fix_zone_values_loss 512 [seq_zone 4096 1 1000])
    as (mem' & Hrun & Hloss); [unfold INT_MAX; lia|].
  exists mem'. split; [exact Hrun|].
  destruct (Hloss 0%nat _ eq_refl) as (z' & Hz' & _ & _ & Hwp & Hstart & _).
  exists z'. split; [exact Hz'|]. split.
  - apply Hwp; [reflexivity|simpl; lia].
  - apply Hstart. reflexivity.
Defined.

(** X3. Normalisation keeps the order of the zones and keeps the write
    pointer inside its zone: zones whose byte starts are in order have their
    stored starts in order, and a zone that is not conventional, whose start
    is a multiple of [D] and whose write pointer lies between its start and
    its end, has its stored write pointer between its stored start and its
    stored start plus its stored length. *)
Theorem gzv_fix_zone_values_order (D : Z) (mem : list blk_zone) :
  1 <= D <= INT_MAX ->
  exists mem',
    gzv_fix_zone_values D mem 0 (Z.of_nat (length mem)) = Ok mem' /\
    (forall i j zi zj zi' zj',
       mem !! i = Some zi -> mem !! j = Some zj ->
       mem' !! i = Some zi' -> mem' !! j = Some zj' ->
       start zi <= start zj -> start zi' <= start zj') /\
    (forall i z z',
       mem !! i = Some z -> mem' !! i = Some z' ->
       zbd_zone_conventional z = false ->
       Z.rem (start z) D = 0 -> 0 <= start z -> 0 <= len z ->
       start z <= wp z <= start z + len z ->
       start z' <= wp z' <= start z' + len z').
Proof.
  intros HD. exists (fix_zone D <$> mem).
  split; [by apply gzv_fix_zone_values_all|]. split.
  - intros i j zi zj zi' zj' Hi Hj. rewrite !list_lookup_fmap, Hi, Hj.
    intros [= <-] [= <-] Hle. unfold fix_zone. simpl. rewrite u64_int by done.
    apply Z.quot_le_mono; lia.
  - intros i z z' Hz. rewrite list_lookup_fmap, Hz. intros [= <-] Hconv.
    unfold fix_zone. simpl. rewrite Hconv, u64_int by done.
    intros Hrem Hs Hl Hwp.
    pose proof (quot_exact (start z) D ltac:(lia) Hrem) as Hexact.
    pose proof (quot_loss (len z) D Hl ltac:(lia)) as Hlen.
    pose proof (quot_loss (wp z) D ltac:(lia) ltac:(lia)) as Hwpl.
    split; [apply Z.quot_le_mono; lia|]. nia.
Qed.

Lemma gzv_fix_zone_values_order_witness :
  exists mem',
    gzv_fix_zone_values 512 [seq_zone 4096 0 8; seq_zone 4096 1 1000] 0 2
      = Ok mem' /\
    exists z0' z1',
      mem' !! 0%nat = Some z0' /\ mem' !! 1%nat = Some z1' /\
      start z0' <= start z1' /\
      start z1' <= wp z1' <= start z1' + len z1'.
Proof.
  destruct (gzv_fix_zone_values_order 512
              [seq_zone 4096 0 8; seq_zone 4096 1 1000])
    as (mem' & Hrun & Horder & Hinside); [unfold INT_MAX; lia|].
  exists mem'. split; [exact Hrun|].
  assert (Hmem : mem' = fix_zone 512 <$> [seq_zone 4096 0 8; seq_zone 4096 1 1000]).
  { rewrite gzv_fix_zone_values_all in Hrun by (unfold INT_MAX; lia).
    by injection Hrun. }
  exists (fix_zone 512 (seq_zone 4096 0 8)), (fix_zone 512 (seq_zone 4096 1 1000)).
  rewrite Hmem. split; [reflexivity|]. split; [reflexivity|]. split.
  - apply (Horder 0%nat 1%nat (seq_zone 4096 0 8) (seq_zone 4096 1 1000));
      rewrite ?Hmem; try reflexivity. simpl. lia.
  - apply (Hinside 1%nat (seq_zone 4096 1 1000));
      rewrite ?Hmem; try reflexivity; simpl; lia.
Defined.

(** ** [gzv_open]: its paths *)

(** The paths of [gzv_open] before the zones are processed. *)
Lemma gzv_open_unfold e w :
  config_ok (gzv w) ->
  gzv_open e w =
    let fd := (zbd_open e (path (gzv w))).1 in
    let inf := (zbd_open e (path (gzv w))).2 in
    let w1 := upd (set_dev_fd fd) (emit [EvZbdOpen (path (gzv w))] w) in
    if fd <? 0 then Ok (w1, -1)
    else
      let w2 := upd (set_info inf) w1 in
      if (block_size (gzv w) >? 1)
         && negb (Z.rem (zone_size inf) (block_size (gzv w)) =? 0)
      then Ok (w2, 1)
      else
        let ret := (zbd_list_zones e fd).1 in
        let zs := (zbd_list_zones e fd).2 in
        let w3 := emit [EvZbdListZones fd] w2 in
        if negb (ret =? 0) then Ok (gzv_close w3, ret)
        else
          let w4 := upd (set_nr_zones (u32 (Z.of_nat (length zs))))
                      (upd (set_zones (Some zs)) w3) in
          if u32 (Z.of_nat (length zs)) =? 0 then Ok (w4, 0)
          else gzv_open_grid e w4 zs 0.
Proof.
  intros (Hbs & _). unfold gzv_open.
  destruct (zbd_open e (path (gzv w))) as [fd inf]. simpl.
  destruct (fd <? 0); [done|].
  rewrite (u64_int (block_size (gzv w))) by done.
  destruct ((block_size (gzv w) >? 1)
            && negb (Z.rem (zone_size inf) (block_size (gzv w)) =? 0)); [done|].
  destruct (zbd_list_zones e fd) as [ret zs]. simpl.
  destruct (Z.eqb_spec ret 0) as [->|Hret]; simpl.
  - destruct (u32 (Z.of_nat (length zs)) =? 0); reflexivity.
  - unfold gzv_open_out. destruct (Z.eqb_spec ret 0); [done|]. reflexivity.
Qed.

Lemma conv_count_snoc l z :
  conv_count (l ++ [z]) =
    conv_count l + (if zbd_zone_conventional z then 1 else 0).
Proof.
  unfold conv_count. rewrite List.filter_app, length_app. simpl.
  destruct (zbd_zone_conventional z); simpl; lia.
Qed.

Lemma conv_count_range l : 0 <= conv_count l <= Z.of_nat (length l).
Proof.
  unfold conv_count. pose proof (List.filter_length_le zbd_zone_conventional l).
  lia.
Qed.

(** The conventional zones are the same before and after normalisation. *)
Lemma conv_count_same_types l1 l2 :
  (forall i, zbd_zone_conventional <$> l1 !! i = zbd_zone_conventional <$> l2 !! i) ->
  conv_count l1 = conv_count l2.
Proof.
  revert l2. induction l1 as [|z1 l1 IH]; intros [|z2 l2] H.
  - done.
  - specialize (H 0%nat). done.
  - specialize (H 0%nat). done.
  - pose proof (H 0%nat) as H0. simpl in H0. injection H0 as H0.
    unfold conv_count in *. simpl. rewrite H0.
    specialize (IH l2 (fun i => H (S i))).
    destruct (zbd_zone_conventional z2); simpl; lia.
Qed.

(** The counting loop adds the conventional zones among the first [nz]
    entries to the counter. *)
Lemma count_conv_loop_value (mem : list blk_zone) (nz n0 : Z) :
  0 <= nz < UINT_MOD -> nz <= Z.of_nat (length mem) ->
  0 <= n0 < UINT_MOD ->
  for_u32 (Z.to_nat nz) (fun i => i <? nz) (count_conv_body mem) 0 n0
    = Ok (u32 (n0 + conv_count (take (Z.to_nat nz) mem))).
Proof.
  intros Hnz Hlen Hn0.
  set (I := fun (i n : Z) => n = u32 (n0 + conv_count (take (Z.to_nat i) mem))).
  assert (Htrue : forall i, 0 <= i < nz -> (i <? nz) = true).
  { intros i Hi. apply Z.ltb_lt. lia. }
  assert (Hbody : forall i (s : Z), 0 <= i < nz -> I i s ->
            exists s', count_conv_body mem i s = Ok s' /\ I (i + 1) s').
  { intros i s Hi HI. unfold count_conv_body.
    destruct (lookup_lt_is_Some_2 mem (Z.to_nat i)) as [z Hz]; [lia|].
    rewrite Hz. eexists. split; [reflexivity|]. unfold I in *.
    replace (Z.to_nat (i + 1)) with (S (Z.to_nat i)) by lia.
    rewrite (take_S_r _ _ _ Hz), conv_count_snoc. subst s.
    destruct (zbd_zone_conventional z).
    - unfold u32. rewrite Zplus_mod_idemp_l. f_equal. lia.
    - f_equal. lia. }
  destruct (for_u32_inv I (fun i => i <? nz) (count_conv_body mem) nz Hnz
              Htrue (Z.ltb_irrefl nz) Hbody (Z.to_nat nz) 0 n0)
    as (n & Hrun & HI); [lia|lia| |].
  { unfold I. simpl. unfold conv_count. simpl. rewrite Z.add_0_r.
    symmetry. by apply u32_small. }
  rewrite Hrun. f_equal. exact HI.
Qed.

(** The zones part of [gzv_open], with every value it computes. *)
Lemma gzv_open_grid_full e w mem :
  config_ok (gzv w) ->
  0 < nr_zones (gzv w) <= INT_MAX ->
  nr_zones (gzv w) = Z.of_nat (length mem) ->
  0 <= nr_conv_zones (gzv w) < UINT_MOD ->
  exists c r m grid,
    (c, r) = (spec_layout (nr_zones (gzv w)) (nr_col (gzv w)) (nr_row (gzv w))).1 /\
    (0 < c < UINT_MOD) /\ (0 < r < UINT_MOD) /\
    m = Z.quot (u32 (nr_zones (gzv w) + c - 1)) c /\
    grid_assigned grid (u32 (c * r)) (nr_zones (gzv w)) /\
    let g1 :=
      set_nr_grid_zones (u32 (c * r))
        (set_max_row m (set_nr_row r (set_nr_col c
           (set_nr_conv_zones (u32 (nr_conv_zones (gzv w) + conv_count mem))
              (set_zones (Some (fix_zone (block_size (gzv w)) <$> mem))
                 (gzv w)))))) in
    let tr := trace w ++ [EvCalloc (u32 (c * r))] in
    gzv_open_grid e w mem 0 =
      Ok (if calloc_ok e (u32 (c * r))
          then ({| gzv := set_grid_zones (Some grid) g1; trace := tr |}, 0)
          else (gzv_close {| gzv := set_grid_zones None g1; trace := tr |},
                - ENOMEM)).
Proof.
  intros Hcfg Hnz Hlen Hconv. pose proof Hcfg as (Hbs & Hhc & Hhr).
  assert (Hrange : 0 < nr_zones (gzv w) < UINT_MOD)
    by (unfold INT_MAX, UINT_MOD in *; lia).
  assert (Hfix : gzv_fix_zone_values (block_size (gzv w)) mem 0
                   (int_of_u32 (nr_zones (gzv w)))
                 = Ok (fix_zone (block_size (gzv w)) <$> mem)).
  { rewrite int_of_u32_small by lia. rewrite Hlen.
    by apply gzv_fix_zone_values_all. }
  set (mem' := fix_zone (block_size (gzv w)) <$> mem) in *.
  assert (Hcount : for_u32 (Z.to_nat (nr_zones (gzv w)))
                     (fun i => i <? nr_zones (gzv w)) (count_conv_body mem') 0
                     (nr_conv_zones (gzv w))
                   = Ok (u32 (nr_conv_zones (gzv w) + conv_count mem))).
  { assert (Hlen' : length mem' = length mem) by (subst mem'; apply length_fmap).
    rewrite count_conv_loop_value; [|lia|lia|done].
    - rewrite Hlen, Nat2Z.id. rewrite <- (length_fmap (fix_zone (block_size (gzv w)))).
      fold mem'. rewrite firstn_all.
      replace (conv_count mem') with (conv_count mem); [done|].
      apply conv_count_same_types. intros i. subst mem'.
      rewrite list_lookup_fmap. by destruct (mem !! i). }
  destruct (set_defaults_run
              (set_nr_conv_zones (u32 (nr_conv_zones (gzv w) + conv_count mem))
                 (set_zones (Some mem') (gzv w))))
    as (c & r & m & Hdef & Hcr & Hc & Hr & Hm & _); try done.
  assert (Hng : 0 <= u32 (c * r) < UINT_MOD) by apply u32_range.
  destruct (grid_assign_loop_run (u32 (c * r)) (nr_zones (gzv w)) Hng)
    as (grid & Hgrid & Hassigned); [lia|].
  exists c, r, m, grid.
  repeat (split; [done|]).
  unfold gzv_open_grid. rewrite Hfix. simpl.
  rewrite Hcount. simpl. rewrite Hdef. simpl.
  destruct (calloc_ok e (u32 (c * r))); [|reflexivity].
  rewrite Hgrid. simpl. reflexivity.
Qed.

(** [gzv_open] returns for every collaborator; with status 0 the session is
    as [open_done] says. *)
Lemma gzv_open_done e w :
  config_ok (gzv w) -> list_fits_count e ->
  0 <= nr_conv_zones (gzv w) < UINT_MOD ->
  exists w' ret, gzv_open e w = Ok (w', ret) /\ (ret = 0 -> open_done e w w').
Proof.
  intros Hcfg Hfits Hconv. pose proof Hcfg as (Hbs & Hhc & Hhr).
  rewrite gzv_open_unfold by done. cbv zeta.
  specialize (Hfits (zbd_open e (path (gzv w))).1).
  unfold open_done.
  destruct (zbd_open e (path (gzv w))) as [fd inf]. simpl in *.
  destruct (Z.ltb_spec fd 0) as [Hfd|Hfd].
  { eexists _, _. split; [reflexivity|]. lia. }
  destruct ((block_size (gzv w) >? 1)
            && negb (Z.rem (zone_size inf) (block_size (gzv w)) =? 0)) eqn:Hbad.
  { eexists _, _. split; [reflexivity|]. lia. }
  assert (Hblock : block_size (gzv w) = 1 \/
                   Z.rem (zone_size inf) (block_size (gzv w)) = 0).
  { apply andb_false_iff in Hbad as [Hle|Hrem].
    - left. rewrite Z.gtb_ltb in Hle. apply Z.ltb_ge in Hle. lia.
    - right. apply negb_false_iff, Z.eqb_eq in Hrem. done. }
  destruct (zbd_list_zones e fd) as [ret zs]. simpl in *.
  destruct (Z.eqb_spec ret 0) as [->|Hret]; simpl.
  2: { eexists _, _. split; [reflexivity|]. done. }
  assert (Hu : u32 (Z.of_nat (length zs)) = Z.of_nat (length zs)).
  { apply u32_small. unfold INT_MAX, UINT_MOD in *. lia. }
  rewrite Hu.
  destruct (Z.eqb_spec (Z.of_nat (length zs)) 0) as [Hzero|Hnz].
  { eexists _, _. split; [reflexivity|]. intros _. simpl.
    destruct zs; [|simpl in Hzero; lia]. simpl.
    unfold conv_count. simpl. rewrite Z.add_0_r, u32_small by done.
    repeat (split; [done || lia|]). split.
    - intros _. rewrite <- app_assoc. done.
    - intros Hne. done. }
  match goal with
  | |- context [gzv_open_grid e ?w0 zs 0] =>
      destruct (gzv_open_grid_full e w0 zs)
        as (c & r & m & grid & Hcr & Hc & Hr & Hm & Hgrid & Hrun)
  end; try done; try (simpl; lia).
  simpl in Hcr, Hm, Hgrid, Hrun. rewrite Hrun.
  destruct (calloc_ok e (u32 (c * r))).
  - eexists _, _. split; [reflexivity|]. intros _. simpl.
    repeat (split; [done || lia|]). split.
    + intros ->. simpl in Hnz. lia.
    + intros _. exists grid. rewrite <- !app_assoc. simpl.
      injection Hcr as -> ->.
      split; [done|]. split; [exact Hgrid|].
      repeat (split; [done || lia|]). done.
  - eexists _, _. split; [reflexivity|]. unfold ENOMEM. lia.
Qed.

(** The state [main] hands to [gzv_open] holds nothing yet. *)
Lemma main_setup_fresh o argv w :
  main_setup true o argv = inr w ->
  nr_conv_zones (gzv w) = 0 /\ nr_zones (gzv w) = 0 /\
  zones (gzv w) = None /\ grid_zones (gzv w) = None /\
  nr_grid_zones (gzv w) = 0 /\ max_row (gzv w) = 0 /\
  dev_fd (gzv w) = -1 /\
  (trace w = [] \/ trace w = [EvSetLogLevel]).
Proof.
  unfold main_setup. simpl.
  destruct (refresh_interval (parse_options o gzv_init) <? 0); [done|].
  destruct (block_size (parse_options o gzv_init) <=? 0); [done|].
  destruct (Z.of_nat (length argv) <? 2); [done|].
  intros [= <-].
  destruct o as [[] [i|] [c|] [r|] [b|]]; simpl;
    repeat match goal with
           | |- context [?x =? 0] => destruct (x =? 0)
           end; simpl; repeat split; auto.
Qed.

Lemma sim_env_list_fits dev zsz :
  Z.of_nat (length dev) <= INT_MAX -> list_fits_count (sim_env dev zsz).
Proof. intros H fd. exact H. Qed.

(** X4. The block-size check of [gzv_open] makes the normalisation exact:
    for a device that lists no more zones than an [int] holds, after a
    successful open every listed zone whose start and length are multiples
    of the zone size is stored with the start and the length that, times the
    block size, give back the byte values. *)
Theorem gzv_open_exact_units (e : env) (o : options) (argv : list string)
    (w : world) :
  main_setup true o argv = inr w ->
  list_fits_count e ->
  exists w' ret, gzv_open e w = Ok (w', ret) /\
    (ret = 0 ->
     let zs := (zbd_list_zones e (dev_fd (gzv w'))).2 in
     exists mem',
       zones (gzv w') = Some mem' /\ length mem' = length zs /\
       forall (i : nat) z ks kl,
         zs !! i = Some z ->
         start z = ks * zone_size (info (gzv w')) ->
         len z = kl * zone_size (info (gzv w')) ->
         exists z', mem' !! i = Some z' /\
           start z' * block_size (gzv w') = start z /\
           len z' * block_size (gzv w') = len z).
Proof.
  intros Hsetup Hfits.
  pose proof (main_setup_config_ok _ _ _ Hsetup) as Hcfg.
  destruct (main_setup_fresh _ _ _ Hsetup) as (Hconv & _).
  destruct (gzv_open_done e w Hcfg Hfits) as (w' & ret & Hrun & Hdone).
  { rewrite Hconv. unfold UINT_MOD. lia. }
  exists w', ret. split; [done|]. intros Hret.
  destruct (Hdone Hret)
    as (_ & _ & Hblock & Hfd & Hinf & _ & Hbs & _ & _ & Hzones & _).
  cbv zeta. rewrite Hfd, Hinf, Hbs.
  eexists. split; [exact Hzones|]. split; [by rewrite length_fmap|].
  intros i z ks kl Hz Hs Hl. exists (fix_zone (block_size (gzv w)) z).
  rewrite list_lookup_fmap, Hz. split; [done|].
  destruct Hcfg as (Hrange & _).
  unfold fix_zone. simpl. rewrite u64_int by done.
  assert (Hdiv : forall k,
            Z.rem (k * zone_size (zbd_open e (path (gzv w))).2)
              (block_size (gzv w)) = 0).
  { intros k. destruct Hblock as [->|Hrem]; [apply Z.rem_1_r|].
    pose proof (Z.quot_rem (zone_size (zbd_open e (path (gzv w))).2)
                  (block_size (gzv w)) ltac:(lia)) as Hq.
    rewrite Hrem, Z.add_0_r in Hq. rewrite Hq.
    rewrite (Z.mul_comm (block_size (gzv w))), Z.mul_assoc.
    apply Z.rem_mul. lia. }
  rewrite Hs, Hl. split.
  - rewrite Z.mul_comm. apply quot_exact; [lia|apply Hdiv].
  - rewrite Z.mul_comm. apply quot_exact; [lia|apply Hdiv].
Qed.

Lemma gzv_open_exact_units_witness :
  exists w' mem' z',
    gzv_open (sim_env dev4 8) (setup_with 2 0 0) = Ok (w', 0) /\
    zones (gzv w') = Some mem' /\
    mem' !! 3%nat = Some z' /\
    start z' * 2 = 24 /\ len z' * 2 = 8.
Proof.
  destruct (gzv_open_exact_units (sim_env dev4 8) (options_with 2 0 0)
              argv_dev (setup_with 2 0 0) eq_refl) as (w' & ret & Hrun & Hexact).
  { apply sim_env_list_fits. simpl. unfold INT_MAX. lia. }
  pose proof Hrun as Heval. vm_compute in Heval.
  injection Heval as Hw Hret. subst w' ret.
  destruct (Hexact eq_refl) as (mem' & Hzones & _ & Hunits).
  destruct (Hunits 3%nat (seq_zone 8 3 0) 3 1 eq_refl eq_refl eq_refl)
    as (z' & Hz' & Hs & Hl).
  eexists _, mem', z'. split; [exact Hrun|]. split; [exact Hzones|].
  split; [exact Hz'|]. split; [exact Hs|exact Hl].
Defined.

(** X5. [gzv_open] counts the conventional zones: after a successful open
    [nr_conv_zones] is the number of conventional zones the device listed,
    which is at most the zone count. *)
Theorem gzv_open_counts_conventional (e : env) (o : options)
    (argv : list string) (w : world) :
  main_setup true o argv = inr w ->
  list_fits_count e ->
  exists w' ret, gzv_open e w = Ok (w', ret) /\
    (ret = 0 ->
     nr_conv_zones (gzv w') =
       conv_count (zbd_list_zones e (dev_fd (gzv w'))).2 /\
     0 <= nr_conv_zones (gzv w') <= nr_zones (gzv w')).
Proof.
  intros Hsetup Hfits.
  pose proof (main_setup_config_ok _ _ _ Hsetup) as Hcfg.
  destruct (main_setup_fresh _ _ _ Hsetup) as (Hconv & _).
  destruct (gzv_open_done e w Hcfg Hfits) as (w' & ret & Hrun & Hdone).
  { rewrite Hconv. unfold UINT_MOD. lia. }
  exists w', ret. split; [done|]. intros Hret.
  destruct (Hdone Hret)
    as (_ & _ & _ & Hfd & _ & _ & _ & _ & Hnz & _ & Hcount & _).
  rewrite Hfd, Hcount, Hnz, Hconv. simpl.
  pose proof (conv_count_range (zbd_list_zones e (zbd_open e (path (gzv w))).1).2)
    as Hr.
  specialize (Hfits (zbd_open e (path (gzv w))).1).
  rewrite u32_small by (unfold INT_MAX, UINT_MOD in *; lia). lia.
Qed.

Lemma gzv_open_counts_conventional_witness :
  exists w',
    gzv_open (sim_env dev_mixed 8) plain_setup = Ok (w', 0) /\
    nr_conv_zones (gzv w') = 2 /\
    0 <= nr_conv_zones (gzv w') <= nr_zones (gzv w').
Proof.
  destruct (gzv_open_counts_conventional (sim_env dev_mixed 8) no_options
              argv_dev plain_setup eq_refl) as (w' & ret & Hrun & Hcount).
  { apply sim_env_list_fits. simpl. unfold INT_MAX. lia. }
  pose proof Hrun as Heval. vm_compute in Heval.
  injection Heval as Hw Hret. subst w' ret.
  destruct (Hcount eq_refl) as (Hval & Hle).
  eexists. split; [exact Hrun|]. split; [exact Hval|exact Hle].
Defined.

(** X6. The layout chosen without hints for fewer than 100 zones is nearly
    square and has no spare row: the rows are at least the columns and at
    most two more, and the cells beyond the zones are fewer than one row. *)
Theorem gzv_open_near_square (e : env) (o : options) (argv : list string)
    (w : world) :
  main_setup true o argv = inr w ->
  nr_col (gzv w) = 0 -> nr_row (gzv w) = 0 ->
  exists w' ret, gzv_open e w = Ok (w', ret) /\
    (ret = 0 -> 0 < nr_zones (gzv w') < 100 ->
     nr_col (gzv w') <= nr_row (gzv w') <= nr_col (gzv w') + 2 /\
     0 <= nr_col (gzv w') * nr_row (gzv w') - nr_zones (gzv w')
       < nr_col (gzv w') /\
     nr_grid_zones (gzv w') = nr_col (gzv w') * nr_row (gzv w') /\
     max_row (gzv w') = nr_row (gzv w')).
Proof.
  intros Hsetup Hhc Hhr.
  pose proof (main_setup_config_ok _ _ _ Hsetup) as Hcfg.
  destruct (gzv_open_run e w Hcfg) as (w' & ret & Hrun & Hok & _).
  exists w', ret. split; [done|]. intros Hret Hnz.
  destruct (Hok Hret ltac:(lia))
    as (zs & mem' & grid & _ & _ & _ & _ & _ & _ & _ & _ & Hcr & Hc & Hr & _
        & Hfit & Hng & _).
  rewrite Hhc, Hhr in Hcr, Hfit. unfold spec_layout in Hcr, Hfit.
  simpl in Hcr, Hfit.
  destruct (Z.ltb_spec (nr_zones (gzv w')) 100); [|lia]. simpl in Hcr, Hfit.
  injection Hcr as Hcol Hrow.
  pose proof (Z.sqrt_spec (nr_zones (gzv w')) ltac:(lia)) as Hsq.
  cbv zeta in Hsq. rewrite <- Hcol in Hsq.
  pose proof (ceil_div_bounds (nr_zones (gzv w')) (nr_col (gzv w'))
                ltac:(lia) ltac:(lia)) as Hceil.
  rewrite <- Hcol in Hrow, Hfit. rewrite <- Hrow in Hceil, Hfit.
  assert (Hsmall : nr_col (gzv w') < 10) by nia.
  assert (Hrows : nr_row (gzv w') <= nr_col (gzv w') + 2) by nia.
  split; [split; [nia|done]|]. split; [nia|]. split.
  - rewrite Hng. apply u32_small. unfold UINT_MOD. nia.
  - apply Hfit. unfold UINT_MOD. lia.
Qed.

Lemma gzv_open_near_square_witness :
  exists w',
    gzv_open (sim_env (seq_dev 37 8) 8) plain_setup = Ok (w', 0) /\
    nr_col (gzv w') <= nr_row (gzv w') <= nr_col (gzv w') + 2 /\
    0 <= nr_col (gzv w') * nr_row (gzv w') - 37 < nr_col (gzv w') /\
    nr_grid_zones (gzv w') = nr_col (gzv w') * nr_row (gzv w').
Proof.
  destruct (gzv_open_near_square (sim_env (seq_dev 37 8) 8) no_options
              argv_dev plain_setup eq_refl eq_refl eq_refl)
    as (w' & ret & Hrun & Hsquare).
  pose proof Hrun as Heval. vm_compute in Heval.
  injection Heval as Hw Hret. subst w' ret.
  destruct (Hsquare eq_refl) as (Hrows & Hspare & Hcells & _); [simpl; lia|].
  eexists. split; [exact Hrun|]. split; [exact Hrows|].
  split; [exact Hspare|exact Hcells].
Defined.

(** X7. The populated rows cover the zones: with hints that are not
    negative and a zone count in the range of [int], zone [i] lies in row
    [i / nr_col], every such row is below [max_row], and the last zone lies
    in row [max_row - 1]. *)
Theorem gzv_open_rows_cover (e : env) (o : options) (argv : list string)
    (w : world) :
  main_setup true o argv = inr w ->
  nr_col (gzv w) <= INT_MAX ->
  exists w' ret, gzv_open e w = Ok (w', ret) /\
    (ret = 0 -> 0 < nr_zones (gzv w') <= INT_MAX ->
     (forall i, 0 <= i < nr_zones (gzv w') ->
        0 <= i / nr_col (gzv w') < max_row (gzv w')) /\
     (nr_zones (gzv w') - 1) / nr_col (gzv w') = max_row (gzv w') - 1).
Proof.
  intros Hsetup Hhint.
  pose proof (main_setup_config_ok _ _ _ Hsetup) as Hcfg.
  destruct (gzv_open_run e w Hcfg) as (w' & ret & Hrun & Hok & _).
  exists w', ret. split; [done|]. intros Hret Hnz.
  destruct (Hok Hret ltac:(lia))
    as (zs & mem' & grid & _ & _ & _ & _ & _ & _ & _ & _ & Hcr & Hc & Hr & _
        & Hfit & _).
  assert (Hcol : nr_col (gzv w') <= INT_MAX).
  { unfold spec_layout in Hcr. simpl in Hcr.
    destruct ((nr_col (gzv w) =? 0) && (nr_row (gzv w) =? 0)
              && (nr_zones (gzv w') <? 100)) eqn:Hauto; simpl in Hcr;
      injection Hcr as Hcol _; rewrite Hcol.
    - pose proof (Z.sqrt_le_lin (nr_zones (gzv w')) ltac:(lia)). lia.
    - destruct (nr_col (gzv w) =? 0); [unfold INT_MAX; lia|done]. }
  assert (Hmax : max_row (gzv w') =
                   ceil_div (nr_zones (gzv w')) (nr_col (gzv w'))).
  { rewrite Hfit by (unfold INT_MAX, UINT_MOD in *; lia).
    unfold spec_layout. simpl.
    unfold spec_layout in Hcr. simpl in Hcr.
    destruct ((nr_col (gzv w) =? 0) && (nr_row (gzv w) =? 0)
              && (nr_zones (gzv w') <? 100)); simpl in *;
      by injection Hcr as -> _. }
  pose proof (ceil_div_bounds (nr_zones (gzv w')) (nr_col (gzv w'))
                ltac:(lia) ltac:(lia)) as Hceil.
  rewrite <- Hmax in Hceil. split.
  - intros i Hi. split; [apply Z.div_pos; lia|].
    apply Z.div_lt_upper_bound; [lia|nia].
  - symmetry. apply (Z.div_unique _ _ _
      (nr_zones (gzv w') - 1 - nr_col (gzv w') * (max_row (gzv w') - 1)));
      nia.
Qed.

Lemma gzv_open_rows_cover_witness :
  exists w',
    gzv_open (sim_env (seq_dev 10 8) 8) (setup_with 1 4 2) = Ok (w', 0) /\
    (forall i, 0 <= i < 10 -> 0 <= i / 4 < max_row (gzv w')) /\
    (10 - 1) / 4 = max_row (gzv w') - 1.
Proof.
  destruct (gzv_open_rows_cover (sim_env (seq_dev 10 8) 8) (options_with 1 4 2)
              argv_dev (setup_with 1 4 2) eq_refl) as (w' & ret & Hrun & Hrows).
  { simpl. unfold INT_MAX. lia. }
  pose proof Hrun as Heval. vm_compute in Heval.
  injection Heval as Hw Hret. subst w' ret.
  destruct (Hrows eq_refl) as (Hcover & Hlast); [simpl; unfold INT_MAX; lia|].
  eexists. split; [exact Hrun|]. split; [exact Hcover|exact Hlast].
Defined.

(** X8. A device that lists no zone is opened with success: [gzv_open]
    returns 0, keeps the device open, calls neither [calloc] nor
    [zbd_close], and leaves the grid pointer null and the geometry as the
    options set it. *)
Theorem gzv_open_no_zones (e : env) (o : options) (argv : list string)
    (w : world) (fd : Z) (inf : zbd_info) :
  main_setup true o argv = inr w ->
  zbd_open e (path (gzv w)) = (fd, inf) -> 0 <= fd ->
  (block_size (gzv w) = 1 \/ Z.rem (zone_size inf) (block_size (gzv w)) = 0) ->
  zbd_list_zones e fd = (0, []) ->
  exists w',
    gzv_open e w = Ok (w', 0) /\
    dev_fd (gzv w') = fd /\
    nr_zones (gzv w') = 0 /\
    grid_zones (gzv w') = None /\
    nr_grid_zones (gzv w') = 0 /\
    max_row (gzv w') = 0 /\
    nr_col (gzv w') = nr_col (gzv w) /\
    nr_row (gzv w') = nr_row (gzv w) /\
    trace w' = trace w ++ [EvZbdOpen (path (gzv w)); EvZbdListZones fd].
Proof.
  intros Hsetup Hopen Hfd Hblock Hlist.
  pose proof (main_setup_config_ok _ _ _ Hsetup) as Hcfg.
  destruct (main_setup_fresh _ _ _ Hsetup)
    as (_ & _ & _ & Hgrid & Hng & Hmax & _).
  rewrite gzv_open_unfold by done. cbv zeta. rewrite Hopen. simpl.
  destruct (Z.ltb_spec fd 0); [lia|].
  assert (Hgood : (block_size (gzv w) >? 1)
                  && negb (Z.rem (zone_size inf) (block_size (gzv w)) =? 0)
                  = false).
  { destruct Hblock as [-> | ->]; [reflexivity|].
    rewrite Z.eqb_refl. apply andb_false_r. }
  rewrite Hgood, Hlist. simpl.
  eexists. split; [reflexivity|]. simpl. rewrite <- app_assoc.
  repeat split; auto.
Qed.

Lemma gzv_open_no_zones_witness :
  exists w',
    gzv_open (sim_env [] 8) (setup_with 2 0 0) = Ok (w', 0) /\
    dev_fd (gzv w') = 3 /\
    grid_zones (gzv w') = None /\
    nr_col (gzv w') = 0 /\
    trace w' = [EvZbdOpen (Some "/dev/nullb0"%string); EvZbdListZones 3].
Proof.
  destruct (gzv_open_no_zones (sim_env [] 8) (options_with 2 0 0) argv_dev
              (setup_with 2 0 0) 3 {| zone_size := 8 |} eq_refl eq_refl)
    as (w' & Hrun & Hfd & _ & Hgrid & _ & _ & Hcol & _ & Htrace);
    [lia|right; reflexivity|reflexivity|].
  exists w'. split; [exact Hrun|]. split; [exact Hfd|].
  split; [exact Hgrid|]. split; [exact Hcol|exact Htrace].
Defined.

(** X9. The failures of [gzv_open], one by one, from the state [main] sets
    up. When [zbd_open] fails, [gzv_open] returns -1 and makes no further
    call. When the device opens and the block size is above 1 and does not
    divide the zone size, it returns 1 and makes no further call, with the
    descriptor kept. Past that check, when [zbd_list_zones] returns a status
    other than 0 it returns that status, and when zones are listed (a count
    other than 0) and the [calloc] of the grid fails it returns [-ENOMEM];
    in both the descriptor that [zbd_open] returned is closed once and left
    at -1, and [free] gets the zone array when it was allocated and the null
    pointer otherwise. *)
Theorem gzv_open_failures (e : env) (o : options) (argv : list string)
    (w : world) :
  main_setup true o argv = inr w ->
  let fd := (zbd_open e (path (gzv w))).1 in
  let inf := (zbd_open e (path (gzv w))).2 in
  let st := (zbd_list_zones e fd).1 in
  let nz := u32 (Z.of_nat (length (zbd_list_zones e fd).2)) in
  let cr := (spec_layout nz (nr_col (gzv w)) (nr_row (gzv w))).1 in
  let ng := u32 (cr.1 * cr.2) in
  let bad := 1 < block_size (gzv w) /\
             Z.rem (zone_size inf) (block_size (gzv w)) <> 0 in
  let opened_ev := EvZbdOpen (path (gzv w)) in
  (fd < 0 ->
   exists w', gzv_open e w = Ok (w', -1) /\ dev_fd (gzv w') = fd /\
     trace w' = trace w ++ [opened_ev]) /\
  (0 <= fd -> bad ->
   exists w', gzv_open e w = Ok (w', 1) /\ dev_fd (gzv w') = fd /\
     trace w' = trace w ++ [opened_ev]) /\
  (0 <= fd -> ~ bad -> st <> 0 ->
   exists w', gzv_open e w = Ok (w', st) /\ dev_fd (gzv w') = -1 /\
     trace w' = trace w ++ [opened_ev; EvZbdListZones fd; EvZbdClose fd;
                            EvFree None; EvFree None]) /\
  (0 <= fd -> ~ bad -> st = 0 -> nz <> 0 -> calloc_ok e ng = false ->
   exists w', gzv_open e w = Ok (w', - ENOMEM) /\ dev_fd (gzv w') = -1 /\
     trace w' = trace w ++ [opened_ev; EvZbdListZones fd; EvCalloc ng;
                            EvZbdClose fd; EvFree (Some ZoneArray);
                            EvFree None]).
Proof.
  intros Hsetup. cbv zeta.
  pose proof (main_setup_config_ok _ _ _ Hsetup) as Hcfg.
  destruct (main_setup_fresh _ _ _ Hsetup)
    as (_ & _ & Hzones & Hgrid & _).
  rewrite gzv_open_unfold by done. cbv zeta.
  destruct (zbd_open e (path (gzv w))) as [fd inf]. simpl.
  assert (Hbad : forall b,
            (block_size (gzv w) >? 1)
            && negb (Z.rem (zone_size inf) (block_size (gzv w)) =? 0) = b ->
            if b then 1 < block_size (gzv w) /\
                      Z.rem (zone_size inf) (block_size (gzv w)) <> 0
            else ~ (1 < block_size (gzv w) /\
                    Z.rem (zone_size inf) (block_size (gzv w)) <> 0)).
  { intros [] Hb.
    - apply andb_true_iff in Hb as [Hgt Hrem].
      apply negb_true_iff, Z.eqb_neq in Hrem. split; [lia|done].
    - intros [Hgt Hrem]. apply andb_false_iff in Hb as [Hb|Hb].
      + rewrite Z.gtb_ltb in Hb. apply Z.ltb_ge in Hb. lia.
      + apply negb_false_iff, Z.eqb_eq in Hb. done. }
  destruct ((block_size (gzv w) >? 1)
            && negb (Z.rem (zone_size inf) (block_size (gzv w)) =? 0))
    eqn:Hcheck; specialize (Hbad _ eq_refl); simpl in Hbad.
  all: destruct (Z.ltb_spec fd 0) as [Hfd|Hfd].
  all: split; [|split; [|split]]; try (intros; lia); try (intros; done).
  - intros _. eexists. split; [reflexivity|]. done.
  - intros _ _. eexists. split; [reflexivity|]. done.
  - intros _. eexists. split; [reflexivity|]. done.
  - intros _ _ Hst. destruct (zbd_list_zones e fd) as [st zs]. simpl in *.
    destruct (Z.eqb_spec st 0); [done|]. simpl.
    eexists. split; [reflexivity|].
    unfold gzv_close. simpl. destruct (Z.ltb_spec fd 0); [lia|]. simpl.
    unfold zones_ptr, grid_ptr. simpl. rewrite Hzones, Hgrid.
    rewrite <- !app_assoc. done.
  - intros _ _ Hst Hnz Hcalloc.
    destruct (zbd_list_zones e fd) as [st zs]. simpl in *. subst st. simpl.
    destruct (Z.eqb_spec (u32 (Z.of_nat (length zs))) 0); [done|].
    pose proof (u32_range (Z.of_nat (length zs))) as Hrange.
    pose proof (u32_of_length_le (length zs)) as Hle.
    match goal with
    | |- context [gzv_open_grid e ?w0 zs 0] =>
        destruct (gzv_open_grid_run e w0 zs)
          as (mem' & nconv & c & r & m & grid & _ & _ & Hcr & _ & _ & _ & _
              & _ & Hrun)
    end; [done|simpl; lia|simpl; lia|].
    simpl in Hcr, Hrun. rewrite Hrun.
    injection Hcr as -> ->. rewrite Hcalloc.
    eexists. split; [reflexivity|].
    unfold gzv_close. simpl. destruct (Z.ltb_spec fd 0); [lia|]. simpl.
    rewrite <- !app_assoc. done.
Qed.

Lemma gzv_open_failures_witness :
  (exists w',
     gzv_open (sim_env_list_fails dev4 8 (-5)) plain_setup = Ok (w', -5) /\
     dev_fd (gzv w') = -1 /\
     trace w' = [EvZbdOpen (Some "/dev/nullb0"%string); EvZbdListZones 3;
                 EvZbdClose 3; EvFree None; EvFree None]) /\
  (exists w',
     gzv_open (sim_env_no_memory dev4 8) plain_setup = Ok (w', -12) /\
     dev_fd (gzv w') = -1 /\
     trace w' = [EvZbdOpen (Some "/dev/nullb0"%string); EvZbdListZones 3;
                 EvCalloc 4; EvZbdClose 3; EvFree (Some ZoneArray);
                 EvFree None]) /\
  (exists w',
     gzv_open (sim_env dev10 10) (setup_with 3 0 0) = Ok (w', 1) /\
     dev_fd (gzv w') = 3 /\
     trace w' = [EvZbdOpen (Some "/dev/nullb0"%string)]).
Proof.
  split; [|split].
  - destruct (gzv_open_failures (sim_env_list_fails dev4 8 (-5)) no_options
                argv_dev plain_setup eq_refl) as (_ & _ & Hlist & _).
    apply Hlist.
    + simpl. lia.
    + intros [Hgt _]. simpl in Hgt. lia.
    + simpl. lia.
  - destruct (gzv_open_failures (sim_env_no_memory dev4 8) no_options
                argv_dev plain_setup eq_refl) as (_ & _ & _ & Hmem).
    apply Hmem.
    + simpl. lia.
    + intros [Hgt _]. simpl in Hgt. lia.
    + reflexivity.
    + vm_compute. discriminate.
    + reflexivity.
  - destruct (gzv_open_failures (sim_env dev10 10) (options_with 3 0 0)
                argv_dev (setup_with 3 0 0) eq_refl) as (_ & Hblock & _).
    apply Hblock.
    + simpl. lia.
    + split; [simpl; lia|]. vm_compute. discriminate.
Defined.

(** X10. The exit status of [main], with the interface phase recorded as
    calls and [gtk_main] taken to return. [main] does not stop inside
    [gzv_open], whatever the collaborators answer, and its status is 0 or 1.
    It is 1, before the interface is created, when a start-up check fails,
    when [gzv_open] returns another status than 0 or when one of the three
    system calls of the signal set-up fails; it is 0 otherwise, after the
    interface phase, and the interface is created in that case only. *)
Theorem main_exit_status (e : env) (parse_ok : bool) (o : options)
    (argv : list string) :
  exists w c,
    main e parse_ok o argv = Ok (w, c) /\
    (c = 0 \/ c = 1) /\
    (c = 0 <->
     exists w0 w1,
       main_setup parse_ok o argv = inr w0 /\
       gzv_open e w0 = Ok (w1, 0) /\
       0 <= pipe_ret e /\ 0 <= getfl_ret e /\ 0 <= setfl_ret e) /\
    (In EvIfCreate (trace w) <-> c = 0).
Proof.
  unfold main.
  destruct (main_setup parse_ok o argv) as [[w c]|w0] eqn:Hsetup.
  - assert (Hc : c = 1 /\ trace w = []).
    { unfold main_setup in Hsetup.
      destruct (negb parse_ok); [injection Hsetup as <- <-; done|].
      destruct (_ <? 0); [injection Hsetup as <- <-; done|].
      destruct (_ <=? 0); [injection Hsetup as <- <-; done|].
      destruct (_ <? 2); [injection Hsetup as <- <-; done|]. done. }
    destruct Hc as [-> Htr]. exists w, 1. split; [done|]. split; [by right|].
    split.
    + split; [done|]. by intros (? & ? & ? & _).
    + rewrite Htr. simpl. split; [done|lia].
  - assert (parse_ok = true) as ->.
    { unfold main_setup in Hsetup. by destruct parse_ok. }
    pose proof (main_setup_config_ok _ _ _ Hsetup) as Hcfg.
    destruct (main_setup_fresh _ _ _ Hsetup) as (_ & _ & _ & _ & _ & _ & _ & Htr0).
    destruct (gzv_open_run e w0 Hcfg) as (w1 & ret & Hrun & _).
    assert (Hquiet : ~ In EvIfCreate (trace w1)).
    { clear Hcfg. revert Hrun. rewrite gzv_open_unfold by (by apply main_setup_config_ok in Hsetup).
      cbv zeta. intros Hrun. intros Hin.
      assert (Hbase : forall evs, ~ In EvIfCreate evs ->
                ~ In EvIfCreate (trace w0 ++ evs)).
      { intros evs Hevs Hin'. apply in_app_or in Hin' as [Hin'|Hin']; [|done].
        destruct Htr0 as [Ht|Ht]; rewrite Ht in Hin'; simpl in Hin';
          intuition discriminate. }
      destruct (_ <? 0).
      { injection Hrun as <- _. simpl in Hin. revert Hin. apply Hbase.
        simpl. intuition discriminate. }
      destruct (_ && _).
      { injection Hrun as <- _. simpl in Hin. revert Hin. apply Hbase.
        simpl. intuition discriminate. }
      destruct (negb _).
      { injection Hrun as <- _. unfold gzv_close in Hin. simpl in Hin.
        destruct (_ <? 0); simpl in Hin; rewrite <- ?app_assoc in Hin;
          revert Hin; apply Hbase; simpl; intuition discriminate. }
      destruct (_ =? 0).
      { injection Hrun as <- _. simpl in Hin. rewrite <- ?app_assoc in Hin.
        revert Hin. apply Hbase. simpl. intuition discriminate. }
      unfold gzv_open_grid in Hrun.
      destruct (gzv_fix_zone_values _ _ _ _); simpl in Hrun; try done.
      destruct (for_u32 _ _ (count_conv_body _) _ _); simpl in Hrun; try done.
      destruct (set_defaults _); simpl in Hrun; try done.
      destruct (calloc_ok _ _).
      - destruct (for_u32 _ _ grid_assign_body _ _); simpl in Hrun; try done.
        unfold gzv_open_out in Hrun. simpl in Hrun.
        injection Hrun as <- _. simpl in Hin. rewrite <- ?app_assoc in Hin.
        revert Hin. apply Hbase. simpl. intuition discriminate.
      - unfold gzv_open_out in Hrun. simpl in Hrun.
        injection Hrun as <- _. unfold gzv_close in Hin. simpl in Hin.
        destruct (_ <? 0); simpl in Hin; rewrite <- ?app_assoc in Hin;
          revert Hin; apply Hbase; simpl; intuition discriminate. }
    rewrite Hrun. simpl.
    destruct (Z.eqb_spec ret 0) as [->|Hret]; simpl.
    + unfold gzv_set_signal_handlers.
      destruct (Z.ltb_spec (pipe_ret e) 0).
      { exists w1, 1. split; [done|]. split; [by right|]. split.
        - split; [done|]. intros (? & ? & _ & _ & ? & _). lia.
        - split; [done|lia]. }
      destruct (Z.ltb_spec (getfl_ret e) 0).
      { exists w1, 1. split; [done|]. split; [by right|]. split.
        - split; [done|]. intros (? & ? & _ & _ & _ & ? & _). lia.
        - split; [done|lia]. }
      destruct (Z.ltb_spec (setfl_ret e) 0).
      { exists w1, 1. split; [done|]. split; [by right|]. split.
        - split; [done|]. intros (? & ? & _ & _ & _ & _ & ?). lia.
        - split; [done|lia]. }
      eexists _, 0. split; [reflexivity|]. split; [by left|]. split.
      * split; [|done]. intros _. exists w0, w1. done.
      * split; [done|]. intros _. simpl. apply in_or_app. right.
        simpl. auto.
    + exists w1, 1. split; [done|]. split; [by right|]. split.
      * split; [done|]. intros (w0' & w1' & [= <-] & Hrun' & _).
        rewrite Hrun in Hrun'. by injection Hrun'.
      * split; [done|lia].
Qed.

(** ** [gzv_report_zones]: what it changes *)

Lemma store_zones_length rep : forall mem p mem',
  store_zones mem p rep = Ok mem' -> length mem' = length mem.
Proof.
  induction rep as [|z rep IH]; intros mem p mem'; simpl.
  - by intros [= ->].
  - destruct (mem !! p); [|done]. intros H. apply IH in H.
    by rewrite length_insert in H.
Qed.

Lemma fix_zone_loop_length D n : forall p mem mem',
  fix_zone_loop D n p mem = Ok mem' -> length mem' = length mem.
Proof.
  induction n as [|n IH]; intros p mem mem'; simpl.
  - by intros [= ->].
  - destruct (mem !! p); [|done]. destruct (u64 D =? 0); [done|].
    intros H. apply IH in H. by rewrite length_insert in H.
Qed.

Lemma gzv_fix_zone_values_length D mem p nrz mem' :
  gzv_fix_zone_values D mem p nrz = Ok mem' -> length mem' = length mem.
Proof.
  unfold gzv_fix_zone_values. destruct (D =? 1); [by intros [= ->]|].
  apply fix_zone_loop_length.
Qed.

(** X11. A call of [gzv_report_zones] that returns changes nothing of the
    session but the contents of the zone array: the array keeps its length,
    every other field keeps its value (the grid and its references among
    them), and the device is called once at most. *)
Theorem gzv_report_zones_frame (e : env) (w w' : world)
    (zno_start nr ret : Z) :
  gzv_report_zones e w zno_start nr = Ok (w', ret) ->
  same_but_zones (gzv w) (gzv w') /\
  (w' = w \/
   exists mem mem' ofst nbytes cap,
     zones (gzv w) = Some mem /\ zones (gzv w') = Some mem' /\
     length mem' = length mem /\
     trace w' = trace w ++ [EvZbdReportZones (dev_fd (gzv w)) ofst nbytes cap]).
Proof.
  unfold gzv_report_zones. cbv zeta.
  destruct (u32 zno_start >=? nr_zones (gzv w)).
  { intros [= <- <-]. split; [by repeat split|by left]. }
  destruct (zones (gzv w)) as [mem|] eqn:Hmem; [|done].
  destruct (mem !! Z.to_nat (u32 zno_start)) as [z0|]; [|done].
  destruct (zbd_report_zones e _ _ _ _) as [st rep].
  destruct (store_zones mem _ rep) as [mem1| |] eqn:Hstore; simpl; try done.
  apply store_zones_length in Hstore.
  destruct (Z.eqb_spec st 0) as [->|Hst]; simpl.
  - destruct (gzv_fix_zone_values _ mem1 _ _) as [mem2| |] eqn:Hfix; simpl;
      try done.
    apply gzv_fix_zone_values_length in Hfix.
    intros [= <- <-]. simpl. split; [by repeat split|]. right.
    eexists mem, mem2, _, _, _. split; [done|]. split; [done|].
    split; [congruence|done].
  - intros [= <- <-]. simpl. split; [by repeat split|]. right.
    eexists mem, mem1, _, _, _. done.
Qed.

Lemma gzv_report_zones_frame_witness :
  exists w',
    gzv_report_zones (sim_env dev4 8) (after_open (sim_env dev4 8) plain_setup)
      1 2 = Ok (w', 0) /\
    same_but_zones (gzv (after_open (sim_env dev4 8) plain_setup)) (gzv w').
Proof.
  eexists. split; [vm_compute; reflexivity|].
  refine (proj1 (gzv_report_zones_frame (sim_env dev4 8) _ _ 1 2 0 _)).
  vm_compute. reflexivity.
Defined.

(** X12. What a re-query stores. For a zone count in the range of [int], a
    window that starts inside the array and whose sum does not wrap, and a
    collaborator that keeps to the capacity, the call returns the status of
    [zbd_report_zones]; the entries
    from [zno_start] on, as many as zones were reported, hold the reported
    zones, each normalised once when the status is 0 and as reported
    otherwise; every other entry keeps its value. *)
Theorem gzv_report_zones_stores (e : env) (w : world) (zno_start count : Z) :
  zones_ok (gzv w) ->
  nr_zones (gzv w) <= INT_MAX ->
  1 <= block_size (gzv w) <= INT_MAX ->
  0 <= zno_start < nr_zones (gzv w) ->
  0 <= count -> zno_start + count < UINT_MOD ->
  report_within_capacity e ->
  let nrz := Z.min count (nr_zones (gzv w) - zno_start) in
  exists mem z0 w' mem',
    zones (gzv w) = Some mem /\
    mem !! Z.to_nat zno_start = Some z0 /\
    let ans := zbd_report_zones e (dev_fd (gzv w)) (zbd_zone_start z0)
                 (u64 (nrz * zone_size (info (gzv w)))) nrz in
    gzv_report_zones e w zno_start count = Ok (w', ans.1) /\
    zones (gzv w') = Some mem' /\
    Z.of_nat (length ans.2) <= nrz /\
    forall i : nat,
      mem' !! i =
        if decide (Z.to_nat zno_start <= i < Z.to_nat zno_start + length ans.2)%nat
        then (if ans.1 =? 0 then fix_zone (block_size (gzv w)) else id)
               <$> ans.2 !! (i - Z.to_nat zno_start)%nat
        else mem !! i.
Proof.
  intros (mem & Hmem & Hlen & Hnz) Hint Hbs Hstart Hcount Hsum Hcap nrz.
  assert (Hnrz0 : 0 <= nrz) by (subst nrz; lia).
  destruct (lookup_lt_is_Some_2 mem (Z.to_nat zno_start)) as [z0 Hz0]; [lia|].
  exists mem, z0.
  specialize (Hcap (dev_fd (gzv w)) (zbd_zone_start z0)
                (u64 (nrz * zone_size (info (gzv w)))) nrz Hnrz0).
  unfold gzv_report_zones.
  rewrite (u32_small zno_start) by (unfold UINT_MOD in *; lia).
  rewrite (u32_small count) by lia.
  rewrite (u32_small (zno_start + count)) by lia.
  cbv zeta. destruct (Z.geb_spec zno_start (nr_zones (gzv w))); [lia|].
  assert (Hclamp : (if zno_start + count >? nr_zones (gzv w)
                    then u32 (nr_zones (gzv w) - zno_start) else count) = nrz).
  { subst nrz. destruct (Z.gtb_spec (zno_start + count) (nr_zones (gzv w))).
    - rewrite u32_small by lia. lia.
    - lia. }
  rewrite Hclamp, Hmem, Hz0.
  destruct (zbd_report_zones e (dev_fd (gzv w)) (zbd_zone_start z0)
              (u64 (nrz * zone_size (info (gzv w)))) nrz) as [st rep].
  simpl in Hcap |- *.
  destruct (store_zones_lookup rep mem (Z.to_nat zno_start))
    as (mem1 & Hstore & Hlen1 & Hlk1); [subst nrz; lia|].
  rewrite Hstore. simpl.
  destruct (Z.eqb_spec st 0) as [->|Hst]; simpl.
  - assert (Hu : int_of_u32 (u32 (Z.of_nat (length rep))) = Z.of_nat (length rep)).
    { rewrite u32_small by (subst nrz; lia).
      apply int_of_u32_small. subst nrz. lia. }
    rewrite Hu.
    destruct (gzv_fix_zone_values_range (block_size (gzv w)) mem1
                (Z.to_nat zno_start) (Z.of_nat (length rep)) Hbs)
      as (mem2 & Hfix & Hlen2 & Hlk2); [subst nrz; lia|].
    rewrite Hfix. simpl. eexists _, mem2.
    split; [reflexivity|]. split; [reflexivity|]. split; [reflexivity|].
    split; [reflexivity|]. split; [done|].
    intros i. rewrite Hlk2, Hlk1, Nat2Z.id. case_decide; done.
  - eexists _, mem1.
    split; [reflexivity|]. split; [reflexivity|]. split; [reflexivity|].
    split; [reflexivity|]. split; [done|].
    intros i. rewrite Hlk1. case_decide; [|done].
    by destruct (rep !! (i - Z.to_nat zno_start)%nat).
Qed.

Lemma take_upto_length nr l : 0 <= nr -> Z.of_nat (length (take_upto nr l)) <= nr.
Proof.
  revert nr. induction l as [|z l IH]; intros nr Hnr; simpl; [lia|].
  destruct (Z.leb_spec nr 0); simpl; [lia|].
  specialize (IH (nr - 1) ltac:(lia)). lia.
Qed.

Lemma sim_env_within_capacity dev zsz : report_within_capacity (sim_env dev zsz).
Proof. intros fd ofst nbytes nr Hnr. simpl. by apply take_upto_length. Qed.

Lemma gzv_report_zones_stores_witness :
  exists w' mem',
    gzv_report_zones (sim_env dev4 8) (after_open (sim_env dev4 8) plain_setup)
      1 2 = Ok (w', 0) /\
    zones (gzv w') = Some mem' /\
    mem' !! 0%nat = Some (seq_zone 8 0 0) /\
    mem' !! 2%nat = Some (seq_zone 8 2 0).
Proof.
  destruct (gzv_report_zones_stores (sim_env dev4 8)
              (after_open (sim_env dev4 8) plain_setup) 1 2)
    as (mem & z0 & w' & mem' & Hmem & Hz0 & Hrun & Hzones & _ & Hlk).
  - eexists. split; [reflexivity|]. split; [reflexivity|].
    vm_compute. reflexivity.
  - vm_compute. discriminate.
  - vm_compute. split; discriminate.
  - vm_compute. split; [discriminate|reflexivity].
  - lia.
  - vm_compute. reflexivity.
  - apply sim_env_within_capacity.
  - injection Hmem as <-. injection Hz0 as <-.
    exists w', mem'. split; [exact Hrun|]. split; [exact Hzones|].
    split; [exact (Hlk 0%nat)|exact (Hlk 2%nat)].
Defined.

(** ** Re-queries keep the session *)

Lemma gzv_report_zones_fields e w w' zno_start nr ret :
  gzv_report_zones e w zno_start nr = Ok (w', ret) ->
  same_but_zones (gzv w) (gzv w').
Proof.
  unfold gzv_report_zones. cbv zeta.
  destruct (u32 zno_start >=? nr_zones (gzv w)).
  { intros [= <- <-]. by repeat split. }
  destruct (zones (gzv w)) as [mem|]; [|done].
  destruct (mem !! Z.to_nat (u32 zno_start)) as [z0|]; [|done].
  destruct (zbd_report_zones e _ _ _ _) as [st rep].
  destruct (store_zones mem _ rep) as [mem1| |]; simpl; try done.
  destruct (negb (st =? 0)).
  - intros [= <- <-]. by repeat split.
  - destruct (gzv_fix_zone_values _ mem1 _ _) as [mem2| |]; simpl; try done.
    intros [= <- <-]. by repeat split.
Qed.

Lemma same_but_zones_trans g1 g2 g3 :
  same_but_zones g1 g2 -> same_but_zones g2 g3 -> same_but_zones g1 g3.
Proof.
  unfold same_but_zones. intros H12 H23.
  destruct H12 as (?&?&?&?&?&?&?&?&?&?&?&?).
  destruct H23 as (?&?&?&?&?&?&?&?&?&?&?&?).
  repeat split; congruence.
Qed.

(** One re-query keeps an open session. *)
Lemma session_ok_report e w zno_start count :
  session_ok (gzv w) -> report_within_capacity e ->
  0 <= zno_start -> 0 <= count -> zno_start + count < UINT_MOD ->
  exists w' ret,
    gzv_report_zones e w zno_start count = Ok (w', ret) /\
    session_ok (gzv w') /\ same_but_zones (gzv w) (gzv w').
Proof.
  intros (Hzones & Hint & Hbs & Hrefs) Hcap Hs Hc Hsum.
  destruct (gzv_report_zones_window e w zno_start count Hzones Hbs)
    as [Hnoop Hwin]; try lia; try exact Hcap.
  destruct (Z.le_gt_cases (nr_zones (gzv w)) zno_start) as [Hge|Hlt].
  { exists w, 0. split; [by apply Hnoop|]. split; [done|by repeat split]. }
  destruct (Hwin Hlt)
    as (w' & ret & mem & mem' & z0 & Hrun & Hmem & _ & Hmem' & Hlen & Hnz & _).
  exists w', ret. split; [done|].
  pose proof (gzv_report_zones_fields _ _ _ _ _ _ Hrun) as Hsame.
  split; [|done].
  pose proof Hsame as (_ & Hbs' & _ & _ & _ & _ & _ & _ & _ & _ & _ & Hgrid).
  destruct Hzones as (mem0 & Hmem0 & Hlen0 & Hrange).
  rewrite Hmem in Hmem0. injection Hmem0 as <-.
  split; [|split; [|split]].
  - exists mem'. split; [done|]. rewrite Hlen, Hnz. done.
  - by rewrite Hnz.
  - by rewrite Hbs'.
  - destruct Hrefs as (mem0 & grid & Hmem0 & Hg & Hall).
    rewrite Hmem in Hmem0. injection Hmem0 as <-.
    exists mem', grid. split; [done|]. split; [by rewrite Hgrid|].
    intros i c j Hi Hj. rewrite Hlen. by apply (Hall i c j).
Qed.

(** The session a successful [gzv_open] leaves can be re-queried. *)
Lemma open_done_session_ok e w w' :
  config_ok (gzv w) -> list_fits_count e ->
  open_done e w w' -> 0 < nr_zones (gzv w') -> session_ok (gzv w').
Proof.
  intros (Hbs & _) Hfits Hdone Hnz.
  destruct Hdone
    as (_ & _ & _ & _ & _ & _ & Hbs' & _ & Hlen & Hzones & _ & _ & Hgrid).
  set (zs := (zbd_list_zones e (zbd_open e (path (gzv w))).1).2) in *.
  specialize (Hfits (zbd_open e (path (gzv w))).1). fold zs in Hfits.
  destruct Hgrid as (grid & Hg & (Hglen & Hcells) & _).
  { intros Hnil. rewrite Hnil in Hlen. simpl in Hlen. lia. }
  split; [|split; [|split]].
  - eexists. split; [exact Hzones|]. rewrite length_fmap.
    unfold INT_MAX, UINT_MOD in *. lia.
  - lia.
  - by rewrite Hbs'.
  - eexists _, grid. split; [exact Hzones|]. split; [exact Hg|].
    intros i c j Hi Hj. rewrite Hcells in Hi. rewrite length_fmap.
    case_decide as Hmin.
    + injection Hi as <-. simpl in Hj. injection Hj as <-. simpl.
      split; [lia|done].
    + case_decide; [|done]. injection Hi as <-. done.
Qed.

(** X13. Re-queries keep the session: after a successful open that found
    zones, any sequence of calls of [gzv_report_zones] whose windows do not
    wrap completes, the zone array keeps its [nr_zones] entries, every
    reference of a grid cell stays the index of an entry, and no field but
    the zone array changes. *)
Theorem report_seq_keeps_session (e : env) (o : options) (argv : list string)
    (w : world) :
  main_setup true o argv = inr w ->
  list_fits_count e -> report_within_capacity e ->
  exists w' ret, gzv_open e w = Ok (w', ret) /\
    (ret = 0 -> 0 < nr_zones (gzv w') ->
     session_ok (gzv w') /\
     forall calls, calls_in_range calls ->
       exists w'',
         report_seq e w' calls = Ok w'' /\
         session_ok (gzv w'') /\
         same_but_zones (gzv w') (gzv w'')).
Proof.
  intros Hsetup Hfits Hcap.
  pose proof (main_setup_config_ok _ _ _ Hsetup) as Hcfg.
  destruct (main_setup_fresh _ _ _ Hsetup) as (Hconv & _).
  destruct (gzv_open_done e w Hcfg Hfits) as (w' & ret & Hrun & Hdone).
  { rewrite Hconv. unfold UINT_MOD. lia. }
  exists w', ret. split; [done|]. intros Hret Hnz.
  pose proof (open_done_session_ok e w w' Hcfg Hfits (Hdone Hret) Hnz) as Hok.
  split; [done|]. clear Hrun Hdone Hnz.
  intros calls. revert w' Hok.
  induction calls as [|[s c] calls IH]; intros w' Hok Hcalls; simpl.
  - exists w'. split; [done|]. split; [done|by repeat split].
  - apply Forall_cons in Hcalls as [(Hs & Hc & Hsum) Hcalls]. simpl in *.
    destruct (session_ok_report e w' s c Hok Hcap Hs Hc Hsum)
      as (w1 & r1 & Hrun1 & Hok1 & Hsame1).
    rewrite Hrun1. simpl.
    destruct (IH w1 Hok1 Hcalls) as (w2 & Hrun2 & Hok2 & Hsame2).
    exists w2. split; [done|]. split; [done|].
    by apply (same_but_zones_trans _ (gzv w1)).
Qed.

Lemma report_seq_keeps_session_witness :
  exists w' w'',
    gzv_open (sim_env dev4 8) plain_setup = Ok (w', 0) /\
    report_seq (sim_env dev4 8) w' [(0, 2); (3, 10); (7, 1)] = Ok w'' /\
    session_ok (gzv w'') /\
    same_but_zones (gzv w') (gzv w'').
Proof.
  destruct (report_seq_keeps_session (sim_env dev4 8) no_options argv_dev
              plain_setup eq_refl) as (w' & ret & Hrun & Hkeep).
  { apply sim_env_list_fits. simpl. unfold INT_MAX. lia. }
  { apply sim_env_within_capacity. }
  pose proof Hrun as Heval. vm_compute in Heval.
  injection Heval as Hw Hret. subst w' ret.
  destruct (Hkeep eq_refl) as (_ & Hseq); [simpl; lia|].
  destruct (Hseq [(0, 2); (3, 10); (7, 1)]) as (w'' & Hrun' & Hok & Hsame).
  { repeat constructor; simpl; unfold UINT_MOD; lia. }
  eexists _, w''. split; [exact Hrun|]. split; [exact Hrun'|].
  split; [exact Hok|exact Hsame].
Defined.

(** X14. A window of no zone: a call of [gzv_report_zones] with a count of
    0 and a start inside the array still calls the device, for a length of 0
    bytes and a capacity of 0 entries, returns the status of that call and
    leaves the zone array as it was. *)
Theorem gzv_report_zones_empty_window (e : env) (w : world) (zno_start : Z) :
  zones_ok (gzv w) ->
  1 <= block_size (gzv w) <= INT_MAX ->
  0 <= zno_start < nr_zones (gzv w) ->
  report_within_capacity e ->
  exists w' ret z0,
    gzv_report_zones e w zno_start 0 = Ok (w', ret) /\
    gzv w' = gzv w /\
    (exists mem, zones (gzv w) = Some mem /\
       mem !! Z.to_nat zno_start = Some z0) /\
    ret = (zbd_report_zones e (dev_fd (gzv w)) (zbd_zone_start z0) 0 0).1 /\
    trace w' = trace w ++
      [EvZbdReportZones (dev_fd (gzv w)) (zbd_zone_start z0) 0 0].
Proof.
  intros (mem & Hmem & Hlen & Hnz) Hbs Hstart Hcap.
  destruct (lookup_lt_is_Some_2 mem (Z.to_nat zno_start)) as [z0 Hz0]; [lia|].
  specialize (Hcap (dev_fd (gzv w)) (zbd_zone_start z0) 0 0 ltac:(lia)).
  unfold gzv_report_zones.
  rewrite (u32_small zno_start) by lia.
  change (u32 0) with 0. rewrite Z.add_0_r, (u32_small zno_start) by lia.
  cbv zeta. destruct (Z.geb_spec zno_start (nr_zones (gzv w))); [lia|].
  destruct (Z.gtb_spec zno_start (nr_zones (gzv w))); [lia|].
  rewrite Hmem, Hz0, Z.mul_0_l. change (u64 0) with 0.
  destruct (zbd_report_zones e (dev_fd (gzv w)) (zbd_zone_start z0) 0 0)
    as [st rep] eqn:Hans.
  simpl in Hcap. destruct rep; [|simpl in Hcap; lia]. simpl.
  assert (Hsame : set_zones (Some mem) (gzv w) = gzv w).
  { destruct (gzv w). simpl in *. by rewrite Hmem. }
  destruct (Z.eqb_spec st 0) as [->|Hst]; simpl.
  - unfold gzv_fix_zone_values.
    replace (Z.to_nat (int_of_u32 (u32 (Z.of_nat (@length blk_zone [])))))
      with 0%nat by reflexivity.
    destruct (block_size (gzv w) =? 1); simpl.
    all: rewrite ?Hsame.
    all: eexists _, 0, z0; (split; [reflexivity|]); simpl.
    all: rewrite ?Hsame, Hans; split; [done|]; split; [by exists mem|done].
  - eexists _, st, z0. split; [reflexivity|]. simpl.
    rewrite Hsame, Hans. split; [done|]. split; [by exists mem|done].
Qed.

Lemma gzv_report_zones_empty_window_witness :
  exists w',
    gzv_report_zones (sim_env dev4 8) (after_open (sim_env dev4 8) plain_setup)
      2 0 = Ok (w', 0) /\
    gzv w' = gzv (after_open (sim_env dev4 8) plain_setup) /\
    trace w' = trace (after_open (sim_env dev4 8) plain_setup)
                 ++ [EvZbdReportZones 3 16 0 0].
Proof.
  destruct (gzv_report_zones_empty_window (sim_env dev4 8)
              (after_open (sim_env dev4 8) plain_setup) 2)
    as (w' & ret & z0 & Hrun & Hsame & (mem & Hmem & Hz0) & Hret & Htrace).
  - eexists. split; [reflexivity|]. split; [reflexivity|].
    vm_compute. reflexivity.
  - vm_compute. split; discriminate.
  - vm_compute. split; [discriminate|reflexivity].
  - apply sim_env_within_capacity.
  - injection Hmem as <-. injection Hz0 as <-.
    exists w'. rewrite Hret in Hrun.
    split; [exact Hrun|]. split; [exact Hsame|exact Htrace].
Defined.

(** ** Signals *)

Lemma gzv_sig_handler_pending sig p :
  pending (gzv_sig_handler sig p).1 = pending p ++ int_bytes sig \/
  (gzv_sig_handler sig p).1 = p.
Proof.
  unfold gzv_sig_handler, pipe_write. case_decide; simpl; auto.
Qed.

Lemma deliver_keeps_pending sigs : forall p,
  pending p <> [] -> pending (deliver sigs p) <> [].
Proof.
  induction sigs as [|sig sigs IH]; intros p Hp; simpl; [done|].
  apply IH. destruct (gzv_sig_handler_pending sig p) as [-> | ->]; [|done].
  by destruct (pending p).
Qed.

(** X15. A signal reaches the main loop. Starting from an empty pipe with
    room for one [int], the dispatch of [gzv_process_signal] on input ready
    calls [gtk_main_quit] exactly when at least one signal was handled since,
    and returns TRUE exactly when it called it; the first handler call finds
    room and prints no failure. A dispatch without the input condition
    reads nothing and does not quit. *)
Theorem signal_reaches_main_loop (sigs : list Z) (p : sig_pipe_t)
    (condition : Z) :
  pending p = [] -> (4 <= capacity p)%nat ->
  let r := gzv_process_signal condition (deliver sigs p) in
  (Z.land condition G_IO_IN <> 0 ->
   (r.1.2 = true <-> sigs <> []) /\ r.2 = r.1.2 /\
   pending r.1.1 = drop 32 (pending (deliver sigs p))) /\
  (Z.land condition G_IO_IN = 0 ->
   r = (deliver sigs p, false, false)) /\
  (forall sig, (gzv_sig_handler sig p).2 = false).
Proof.
  intros Hempty Hcap. cbv zeta. split; [|split].
  - intros Hin. unfold gzv_process_signal.
    destruct (Z.eqb_spec (Z.land condition G_IO_IN) 0); [done|]. simpl.
    unfold pipe_read.
    destruct sigs as [|sig sigs].
    + simpl. rewrite Hempty. simpl. split; [|done]. split; [done|]. done.
    + assert (Hne : pending (deliver (sig :: sigs) p) <> []).
      { simpl. apply deliver_keeps_pending.
        unfold gzv_sig_handler, pipe_write. rewrite Hempty. simpl.
        case_decide; [done|lia]. }
      destruct (pending (deliver (sig :: sigs) p)) as [|b l] eqn:Hpend; [done|].
      simpl. split; [|done]. split; [done|]. done.
  - intros Hnot. unfold gzv_process_signal.
    destruct (Z.eqb_spec (Z.land condition G_IO_IN) 0); [done|lia].
  - intros sig. unfold gzv_sig_handler, pipe_write. rewrite Hempty. simpl.
    case_decide; [done|lia].
Qed.

Lemma signal_reaches_main_loop_witness :
  let p := {| pending := []; capacity := 64 |} in
  (gzv_process_signal G_IO_IN (deliver [2; 15] p)).1.2 = true /\
  (gzv_process_signal G_IO_IN (deliver [] p)).1.2 = false /\
  gzv_process_signal G_IO_PRI (deliver [2; 15] p)
    = (deliver [2; 15] p, false, false).
Proof.
  cbv zeta.
  destruct (signal_reaches_main_loop [2; 15] {| pending := []; capacity := 64 |}
              G_IO_IN eq_refl) as ((Hquit & _) & _ & _); [simpl; lia|discriminate|].
  destruct (signal_reaches_main_loop [] {| pending := []; capacity := 64 |}
              G_IO_IN eq_refl) as ((Hnone & _) & _ & _); [simpl; lia|discriminate|].
  destruct (signal_reaches_main_loop [2; 15] {| pending := []; capacity := 64 |}
              G_IO_PRI eq_refl) as (_ & Hpri & _); [simpl; lia|].
  split; [apply Hquit; discriminate|]. split.
  - destruct (gzv_process_signal G_IO_IN (deliver [] {| pending := []; capacity := 64 |})).1.2
      eqn:Hr; [|reflexivity].
    exfalso. by apply Hnone.
  - apply Hpri. reflexivity.
Defined.

(** ** A successful open *)

(** X16. What a successful open that found zones leaves and calls, for a
    device that lists no more zones than an [int] holds: the zone array is
    the listing of the device with every entry normalised once, [nr_zones] is its length, the descriptor is the one [zbd_open]
    returned, the interval, the block size and the path are as [main] set
    them, and the calls made are one [zbd_open], one [zbd_list_zones] and one
    [calloc] of [nr_grid_zones] cells: neither [zbd_close] nor [free]. *)
Theorem gzv_open_success (e : env) (o : options) (argv : list string)
    (w : world) :
  main_setup true o argv = inr w ->
  list_fits_count e ->
  exists w' ret, gzv_open e w = Ok (w', ret) /\
    (ret = 0 -> 0 < nr_zones (gzv w') ->
     let zs := (zbd_list_zones e (dev_fd (gzv w'))).2 in
     zones (gzv w') = Some (fix_zone (block_size (gzv w')) <$> zs) /\
     nr_zones (gzv w') = Z.of_nat (length zs) /\
     (dev_fd (gzv w'), info (gzv w')) = zbd_open e (path (gzv w)) /\
     0 <= dev_fd (gzv w') /\
     refresh_interval (gzv w') = refresh_interval (gzv w) /\
     block_size (gzv w') = block_size (gzv w) /\
     path (gzv w') = path (gzv w) /\
     trace w' = trace w ++ [EvZbdOpen (path (gzv w));
                            EvZbdListZones (dev_fd (gzv w'));
                            EvCalloc (nr_grid_zones (gzv w'))]).
Proof.
  intros Hsetup Hfits.
  pose proof (main_setup_config_ok _ _ _ Hsetup) as Hcfg.
  destruct (main_setup_fresh _ _ _ Hsetup) as (Hconv & _).
  destruct (gzv_open_done e w Hcfg Hfits) as (w' & ret & Hrun & Hdone).
  { rewrite Hconv. unfold UINT_MOD. lia. }
  exists w', ret. split; [done|]. intros Hret Hnz.
  destruct (Hdone Hret)
    as (Hfd0 & _ & _ & Hfd & Hinf & Hri & Hbs & Hpath & Hlen & Hzones & _ & _
        & Hgrid).
  destruct Hgrid as (grid & _ & _ & _ & _ & _ & _ & _ & Htrace).
  { intros Hnil. rewrite Hnil in Hlen. simpl in Hlen. lia. }
  cbv zeta. rewrite Hfd, Hbs.
  split; [done|]. split; [done|]. split.
  { rewrite Hinf. by destruct (zbd_open e (path (gzv w))). }
  repeat split; auto.
Qed.

Lemma gzv_open_success_witness :
  exists w',
    gzv_open (sim_env dev4 8) (setup_with 2 3 3) = Ok (w', 0) /\
    zones (gzv w') = Some (fix_zone 2 <$> dev4) /\
    nr_zones (gzv w') = 4 /\
    trace w' = [EvZbdOpen (Some "/dev/nullb0"%string); EvZbdListZones 3;
                EvCalloc 9].
Proof.
  destruct (gzv_open_success (sim_env dev4 8) (options_with 2 3 3) argv_dev
              (setup_with 2 3 3) eq_refl) as (w' & ret & Hrun & Hsuccess).
  { apply sim_env_list_fits. simpl. unfold INT_MAX. lia. }
  pose proof Hrun as Heval. vm_compute in Heval.
  injection Heval as Hw Hret. subst w' ret.
  destruct (Hsuccess eq_refl) as (Hzones & Hlen & _ & _ & _ & _ & _ & Htrace);
    [simpl; lia|].
  eexists. split; [exact Hrun|]. split; [exact Hzones|].
  split; [exact Hlen|exact Htrace].
Defined.
